(** * Chrome Dev Summit site: the Koa middleware of [host.js]

    A shallow embedding of [src/host.js]: the Section List derived from the
    view directory, the mount-prefix deriver [mountUrl], the AMP stylesheet
    cache and the "flat" section/entity handler with the view scope it
    assembles, followed by the properties of the specification that concern
    them.

    Conventions of the embedding.
    - JavaScript strings are [string]; [undefined] where a string is expected
      is [None].
    - The schedule dataset is the parsed [schedule.json]: JSON values, with
      objects as finite maps from their own keys to values.  A property read
      [o[k]] finds the object's own key first and what the object inherits
      from [Object.prototype] otherwise, [undefined] when there is neither.
    - Module-level [let]/[const] bindings computed at startup are
      definitions over the variables of [Section Host]; the one mutable
      binding, [fallbackProdAmpCss], lives in an explicit [state] threaded
      through the handler.
    - What a middleware does to the response is recorded as a list of
      [event]s, in program order. *)

From Stdlib Require Import ZArith String Ascii List Lia.
From stdpp Require Import base strings gmap list.

#[local] Open Scope string_scope.
#[local] Open Scope Z_scope.
#[local] Set Warnings "-register-all".
#[local] Arguments String.append : simpl nomatch.

(** ** JavaScript strings and arrays *)

Module JS.

(** [s.startsWith(p)] *)
Definition startsWith (s p : string) : bool := String.prefix p s.

(** [s.endsWith(p)] *)
Definition endsWith (s p : string) : bool :=
  let n := String.length s in
  let m := String.length p in
  if (m <=? n)%nat then String.eqb (substring (n - m) m s) p else false.

(** [s.substr(start, len)], with the clamping of the standard. *)
Definition substr (s : string) (start len : Z) : string :=
  let size := Z.of_nat (String.length s) in
  let from := if start <? 0 then Z.max (size + start) 0 else Z.min start size in
  let span := Z.min (Z.max len 0) (size - from) in
  substring (Z.to_nat from) (Z.to_nat span) s.

(** [s.slice(b, e)], with the clamping of the standard. *)
Definition slice (s : string) (b e : Z) : string :=
  let size := Z.of_nat (String.length s) in
  let from := if b <? 0 then Z.max (size + b) 0 else Z.min b size in
  let to := if e <? 0 then Z.max (size + e) 0 else Z.min e size in
  substring (Z.to_nat from) (Z.to_nat (Z.max (to - from) 0)) s.

(** The scan behind [s.lastIndexOf(pat)]: [i] is the index of the first
    character of [s] in the whole string, [acc] the last match seen so far. *)
Fixpoint lastIndexOf_from (i acc : Z) (s pat : string) : Z :=
  let acc' := if String.prefix pat s then i else acc in
  match s with
  | EmptyString => acc'
  | String _ s' => lastIndexOf_from (i + 1) acc' s' pat
  end.

(** [s.lastIndexOf(pat)]: the greatest index at which [pat] occurs in [s],
    [-1] when there is none. *)
Definition lastIndexOf (s pat : string) : Z := lastIndexOf_from 0 (-1) s pat.

(** The scan behind [arr.indexOf(x)] on an array of strings. *)
Fixpoint indexOf_from (i : Z) (l : list string) (x : string) : Z :=
  match l with
  | [] => -1
  | y :: l' => if String.eqb y x then i else indexOf_from (i + 1) l' x
  end.

(** [arr.indexOf(x)]: the first index holding [x] (strict equality), [-1]
    when there is none. *)
Definition indexOf (l : list string) (x : string) : Z := indexOf_from 0 l x.

(** [String(x)] for a value that is a string or [undefined], as string
    concatenation applies it. *)
Definition to_string (x : option string) : string :=
  match x with
  | Some s => s
  | None => "undefined"
  end.

End JS.

(** ** The values a read of the schedule dataset yields *)

(** The JSON values of [schedule.json], and the two kinds of value a plain
    object inherits: the built-in functions of [Object.prototype], told
    apart by their [name], and [Object.prototype] itself. *)
Inductive value : Type :=
| VUndef
| VNull
| VBool (b : bool)
| VNum (n : Z)
| VStr (s : string)
| VArr (l : list value)
| VObj (o : gmap string value)
| VFun (name : string)
| VProto.

(** JavaScript truthiness. Numbers are read through their being zero or not. *)
Definition truthy (v : value) : bool :=
  match v with
  | VUndef | VNull => false
  | VBool b => b
  | VNum n => negb (n =? 0)
  | VStr s => negb (String.eqb s "")
  | VArr _ | VObj _ | VFun _ | VProto => true
  end.

(** The keys of [Object.prototype] that hold a method named after the key. *)
Definition object_methods : list string :=
  ["__defineGetter__"; "__defineSetter__"; "hasOwnProperty";
   "__lookupGetter__"; "__lookupSetter__"; "isPrototypeOf";
   "propertyIsEnumerable"; "toString"; "valueOf"; "toLocaleString"].

(** What a plain object yields under a key it does not own: the property of
    [Object.prototype] of that name, [undefined] when there is none. *)
Definition inherited (k : string) : value :=
  if String.eqb k "constructor" then VFun "Object"
  else if String.eqb k "__proto__" then VProto
  else if bool_decide (k ∈ object_methods) then VFun k
  else VUndef.

(** [a || b] *)
Definition js_or (a b : value) : value := if truthy a then a else b.

(** [m[k]] on a map of the dataset: the own key, else the inherited one. *)
Definition get (m : gmap string value) (k : string) : value :=
  match m !! k with
  | Some v => v
  | None => inherited k
  end.

(** [v.k] for one of the record keys the handler reads ([name],
    [time_label], [description], [youtube_id]): an object is read as above,
    a function has its [name], [Object.prototype] its own properties, and
    the other values carry none of the four. *)
Definition field (v : value) (k : string) : value :=
  match v with
  | VObj o => get o k
  | VFun name => if String.eqb k "name" then VStr name else VUndef
  | VProto => if String.eqb k "__proto__" then VNull else inherited k
  | _ => VUndef
  end.

(** [schedule.json]: the two maps the handler consults. *)
Record Schedule : Type := {
  sessions : gmap string value;
  speakers : gmap string value;
}.

(** ** The Section List (host.js, lines 110-117) *)

(** The callback of [.map]: the section a directory entry stands for,
    [None] for the [undefined] an entry that is no section yields. *)
Definition section_of (section : string) : option string :=
  let ch := String.get 0 section in
  if JS.endsWith section ".html"
     && negb (bool_decide (ch = Some "_"%char))
     && negb (bool_decide (ch = Some "."%char))
  then
    let out := JS.substr section 0 (Z.of_nat (String.length section) - 5) in
    Some (if String.eqb out "index" then "" else out)
  else None.

(** [entries.map(...).filter((x) => x !== undefined)] *)
Definition sections_of (entries : list string) : list string :=
  omap section_of entries.

(** ** The request context and [mountUrl] (host.js, lines 124-133) *)

Record Ctx : Type := {
  ctx_path : string;
  url : string;
  originalUrl : option string;
  host : option string;
}.

Definition mountUrl (ctx : Ctx) : string :=
  match originalUrl ctx with
  | None => ""
  | Some orig =>
      let index := JS.lastIndexOf orig (url ctx) in
      if index =? -1 then "" else JS.slice orig 0 index
  end.

(** ** What a middleware does: events, view scope, replies *)

Record Links : Type := {
  interestForm : string;
  livestreamForm : string;
}.

(** The view scope handed to the template. The fields the entity branch
    adds are [None] while the property is not set. *)
Record Scope (Days : Type) : Type := {
  sc_year : Z;
  sc_eventNo : Z;
  sc_dateString : string;
  sc_prod : bool;
  sc_base : string;
  sc_layout : string;
  sc_ua : string;
  sc_conversion : Z;
  sc_canonicalUrl : string;
  sc_path : string;
  sc_sourcePrefix : string;
  sc_days : Days;
  sc_stage : string;
  sc_links : Links;
  sc_id : option string;
  sc_bodyClass : option string;
  sc_sitePrefix : option string;
  sc_title : option value;
  sc_time_label : option value;
  sc_description : option value;
  sc_youtube_id : option value;
  sc_payload : option value;
  sc_styles : option string;
}.

Arguments Build_Scope {Days}.
Arguments sc_year {Days}.
Arguments sc_eventNo {Days}.
Arguments sc_dateString {Days}.
Arguments sc_prod {Days}.
Arguments sc_base {Days}.
Arguments sc_layout {Days}.
Arguments sc_ua {Days}.
Arguments sc_conversion {Days}.
Arguments sc_canonicalUrl {Days}.
Arguments sc_path {Days}.
Arguments sc_sourcePrefix {Days}.
Arguments sc_days {Days}.
Arguments sc_stage {Days}.
Arguments sc_links {Days}.
Arguments sc_id {Days}.
Arguments sc_bodyClass {Days}.
Arguments sc_sitePrefix {Days}.
Arguments sc_title {Days}.
Arguments sc_time_label {Days}.
Arguments sc_description {Days}.
Arguments sc_youtube_id {Days}.
Arguments sc_payload {Days}.
Arguments sc_styles {Days}.

(** The second argument of [ctx.render]. *)
Inductive locals (Days : Type) : Type :=
| SitemapLocals (data : Schedule) (sitePrefix : string)
| ScopeLocals (scope : Scope Days).

Arguments SitemapLocals {Days}.
Arguments ScopeLocals {Days}.

Inductive event (Days : Type) : Type :=
| SetHeader (name val : string)          (* ctx.set(name, val) *)
| SetType (type : string)                (* ctx.type = type *)
| Send (file : string)                   (* send(ctx, file) *)
| LessRender (input : string)            (* less.render(input) *)
| ConsoleDebug (bytes : nat)             (* console.debug(..., css.length, 'bytes') *)
| Render (view : string) (data : locals Days).  (* ctx.render(view, data) *)

Arguments SetHeader {Days}.
Arguments SetType {Days}.
Arguments Send {Days}.
Arguments LessRender {Days}.
Arguments ConsoleDebug {Days}.
Arguments Render {Days}.

(** How a middleware ends. [Done]: it went through to its answer, the
    [send] or [ctx.render] call that closes its trace; what that call itself
    settles to is the collaborator's and is not part of the model. [Next]:
    it called [next()]. [Threw]: the awaited [less.render] rejected, before
    any answer. *)
Inductive outcome : Type := Done | Next | Threw.

(** The mutable part of the module: the fallback slot, and the number of
    times the CSS preprocessor has been invoked so far. *)
Record state : Type := {
  fallbackProdAmpCss : option string;
  lessCalls : nat;
}.

Record reply (Days : Type) : Type := {
  trace : list (event Days);
  result : outcome;
  final : state;
}.

Arguments Build_reply {Days}.
Arguments trace {Days}.
Arguments result {Days}.
Arguments final {Days}.

(** [true] when every [ctx.render] of the trace happens while the
    [Feature-Policy] header holds [hdr]; [seen] tells whether it does at the
    start of the trace. *)
Fixpoint policy_before_render {Days : Type} (hdr : string) (seen : bool)
    (t : list (event Days)) : bool :=
  match t with
  | [] => true
  | SetHeader name val :: t' =>
      policy_before_render hdr
        (if String.eqb name "Feature-Policy" then String.eqb val hdr else seen) t'
  | Render _ _ :: t' => seen && policy_before_render hdr seen t'
  | _ :: t' => policy_before_render hdr seen t'
  end.

(** The first [ctx.render] of the trace: its view and its data. *)
Fixpoint rendered {Days : Type} (t : list (event Days))
    : option (string * locals Days) :=
  match t with
  | [] => None
  | Render view data :: _ => Some (view, data)
  | _ :: t' => rendered t'
  end.

(** [true] when the trace holds a call of the CSS preprocessor. *)
Definition compiles {Days : Type} (t : list (event Days)) : bool :=
  existsb (fun e => match e with LessRender _ => true | _ => false end) t.

(** ** The module *)

Section Host.

Variable Days : Type.

(** [process.env.NODE_ENV === 'production'] *)
Variable isProd : bool.
(** [__dirname] *)
Variable dirname : string.
(** [require('./schedule.json')] *)
Variable schedule : Schedule.
(** [calendar.days], of [deps/calendar.js] *)
Variable calendar_days : Schedule -> Days.
(** [policy], of [deps/policy.js] *)
Variable policy : bool -> string.
(** [fs.readFileSync]; [None] when it throws *)
Variable readFileSync : string -> option string.
(** [fs.readdirSync] *)
Variable readdirSync : string -> list string.
(** [less.render]: what its [n]-th invocation resolves to on an input,
    [None] when the promise rejects *)
Variable less_render : string -> nat -> option string.

(** [const days = calendar.days(schedule)] (line 39) *)
Definition days : Days := calendar_days schedule.

Definition stage : string := "announce".

Definition policyHeader : string := policy isProd.

Definition readProdAmpCss : option string :=
  let p := dirname +:+ "/res/amp.css" in
  match readFileSync p with
  | Some buf => Some buf
  | None => None
  end.

Definition prodAmpCss : option string :=
  if isProd then readProdAmpCss else None.

Definition sourcePrefix : string := if isProd then "res" else "src".

Definition sections : list string :=
  sections_of (readdirSync (dirname +:+ "/sections")).

(** The first middleware (lines 71-76). *)
Definition sw_middleware (ctx : Ctx) (st : state) : reply Days :=
  if String.eqb (ctx_path ctx) "/sw.js"
  then Build_reply [Send (sourcePrefix +:+ "/sw.js")] Done st
  else Build_reply [] Next st.

(** [(isProd ? 'https://' : 'http://') + hostname + basepath] *)
Definition site_prefix (ctx : Ctx) : string :=
  (if isProd then "https://" else "http://")
    +:+ JS.to_string (host ctx) +:+ mountUrl ctx.

(** The middleware of the fixed top-level files (lines 86-108). *)
Definition toplevel_middleware (ctx : Ctx) (st : state) : reply Days :=
  if String.eqb (ctx_path ctx) "/schedule.json"
  then Build_reply [Send "schedule.json"] Done st
  else if String.eqb (ctx_path ctx) "/googlec6dfdf23945d0d0c.html"
  then Build_reply [Send "googlec6dfdf23945d0d0c.html"] Done st
  else if String.eqb (ctx_path ctx) "/sitemap.xml"
  then
    let sitePrefix := site_prefix ctx in
    Build_reply
      [SetType "text/xml"; Render "_sitemap" (SitemapLocals schedule sitePrefix)]
      Done st
  else Build_reply [] Next st.

(** The AMP stylesheet of a request (lines 188-199): the stylesheet, if
    the preprocessor did not reject, with what was done to get it.
    [prodAmpCss] is a Buffer when set, hence truthy whatever it holds. *)
Definition ampCss (st : state) : list (event Days) * option string * state :=
  let css :=
    match prodAmpCss with
    | Some buf => Some buf
    | None => fallbackProdAmpCss st
    end in
  match css with
  | Some css => ([], Some css, st)
  | None =>
      let filename := dirname +:+ "/static/styles/amp.less" in
      let input := "@import '" +:+ filename +:+ "';" in
      let called :=
        {| fallbackProdAmpCss := fallbackProdAmpCss st;
           lessCalls := S (lessCalls st) |} in
      match less_render input (lessCalls st) with
      | None => ([LessRender input], None, called)
      | Some css =>
          if isProd
          then ([LessRender input; ConsoleDebug (String.length css)],
                Some css,
                {| fallbackProdAmpCss := Some css;
                   lessCalls := S (lessCalls st) |})
          else ([LessRender input], Some css, called)
      end
  end.

(** Lines 172-181: the record looked up for [rest], with the view and the
    body class that go with it. *)
Definition lookup_entity (rest : string) : value * string * string :=
  let data := get (sessions schedule) rest in
  if negb (truthy data)
  then (get (speakers schedule) rest, "_amp-speaker", "speaker-popup")
  else (data, "_amp-session", "schedule-popup").

(** The handler given to [flat] (lines 135-216): [path] and [rest] are
    what the router of [deps/router.js] passes, [rest] being [None] when
    it is [undefined]. *)
Definition flat_handler (ctx : Ctx) (path : string) (rest : option string)
    (st : state) : reply Days :=
  if JS.indexOf sections path =? -1 then Build_reply [] Next st
  else
    let basepath := mountUrl ctx in
    let sitePrefix := site_prefix ctx in
    let year := 2019 in
    let scope :=
      {| sc_year := year;
         sc_eventNo := year - 2012;
         sc_dateString := "11—12 November 2019";
         sc_prod := isProd;
         sc_base := basepath;
         sc_layout := "devsummit";
         sc_ua := "UA-41980257-1";
         sc_conversion := 935743779;
         sc_canonicalUrl := sitePrefix +:+ "/" +:+ path;
         sc_path := path;
         sc_sourcePrefix := sourcePrefix;
         sc_days := days;
         sc_stage := stage;
         sc_links :=
           {| interestForm := "https://docs.google.com/forms/d/e/1FAIpQLSdqEfT0jfgRNIGqibWxBe8X1Dt0a2FcHdituhRhG1tNGL1sBQ/viewform";
              livestreamForm := "https://goo.gl/forms/738tmXWSbEdIWHf63" |};
         sc_id := None;
         sc_bodyClass := None;
         sc_sitePrefix := None;
         sc_title := None;
         sc_time_label := None;
         sc_description := None;
         sc_youtube_id := None;
         sc_payload := None;
         sc_styles := None |} in
    let finish (pre : list (event Days)) (path : string) (scope : Scope Days)
        (st : state) :=
      Build_reply
        (pre ++ [SetHeader "Feature-Policy" policyHeader;
                 Render (if String.eqb path "" then "index" else path)
                        (ScopeLocals scope)])
        Done st in
    match rest with
    | None => finish [] path scope st
    | Some rest =>
        if String.eqb rest "" then finish [] path scope st
        else
          let canonicalUrl := sc_canonicalUrl scope +:+ "/" +:+ rest in
          let '(data, path, bodyClass) := lookup_entity rest in
          if negb (truthy data) || JS.startsWith rest "_"
          then Build_reply [] Next st
          else
            match ampCss st with
            | (pre, None, st') => Build_reply pre Threw st'
            | (pre, Some css, st') =>
                finish pre path
                  {| sc_year := sc_year scope;
                     sc_eventNo := sc_eventNo scope;
                     sc_dateString := sc_dateString scope;
                     sc_prod := sc_prod scope;
                     sc_base := sc_base scope;
                     sc_layout := "amp";
                     sc_ua := sc_ua scope;
                     sc_conversion := sc_conversion scope;
                     sc_canonicalUrl := canonicalUrl;
                     sc_path := sc_path scope;
                     sc_sourcePrefix := sc_sourcePrefix scope;
                     sc_days := sc_days scope;
                     sc_stage := sc_stage scope;
                     sc_links := sc_links scope;
                     sc_id := Some rest;
                     sc_bodyClass := Some bodyClass;
                     sc_sitePrefix := Some sitePrefix;
                     sc_title := Some (js_or (field data "name") (VStr ""));
                     sc_time_label :=
                       Some (js_or (field data "time_label") (VStr ""));
                     sc_description :=
                       Some (js_or (field data "description") (VStr ""));
                     sc_youtube_id :=
                       Some (js_or (field data "youtube_id") (VBool false));
                     sc_payload := Some data;
                     sc_styles := Some css |}
                  st'
            end
    end.

End Host.

(** ** A small deployment to run the module on *)

Module Example.

Definition dirname : string := "/srv/devsummit".

Definition entries : list string :=
  ["_amp-session.html"; "_amp-speaker.html"; "_sitemap.html"; ".keep";
   "index.html"; "keynote.html"; "schedule.html"; "notes.txt"].

Definition readdirSync (dir : string) : list string :=
  if String.eqb dir "/srv/devsummit/sections" then entries else [].

(** No prebuilt stylesheet on disk. *)
Definition readFileSync (file : string) : option string := None.

Definition policy (prod : bool) : string :=
  if prod then "sync-xhr 'none'" else "sync-xhr 'self'".

(** A calendar with nothing to tell. *)
Definition calendar_days (sched : Schedule) : unit := tt.

(** A preprocessor whose output tells its invocations apart. *)
Definition less_render (input : string) (n : nat) : option string :=
  Some (match n with
        | O => "body{margin:0}"
        | S _ => "body{margin:0}/*again*/"
        end).

(** The dataset of the specification's example. *)
Definition talk : value := VObj {[ "name" := VStr "Talk" ]}.

Definition schedule : Schedule :=
  {| sessions := {[ "42" := talk ]}; speakers := ∅ |}.

(** A dataset with an underscore id, and a null session, in both maps, and
    a session that is [0] with no speaker of that id. *)
Definition jane : value := VObj {[ "name" := VStr "Jane" ]}.

Definition schedule_both : Schedule :=
  {| sessions := {[ "_draft" := talk; "7" := VNull; "8" := VNum 0 ]};
     speakers := {[ "_draft" := jane; "7" := jane ]} |}.

(** A dataset whose one session, [null], sits under a name that objects
    inherit; and the same dataset without that key. *)
Definition schedule_null : Schedule :=
  {| sessions := {[ "toString" := VNull ]}; speakers := ∅ |}.

Definition schedule_empty : Schedule := {| sessions := ∅; speakers := ∅ |}.

Definition fresh : state := {| fallbackProdAmpCss := None; lessCalls := 0 |}.

Definition request (path : string) : Ctx :=
  {| ctx_path := path;
     url := path;
     originalUrl := Some ("/devsummit" +:+ path);
     host := Some "example.com" |}.

(** The module on this deployment, in either mode and on a given dataset. *)
Definition handler (prod : bool) (sched : Schedule) :=
  flat_handler unit prod dirname sched calendar_days policy readFileSync readdirSync
    less_render.

Definition toplevel (prod : bool) (sched : Schedule) :=
  toplevel_middleware unit prod sched.

Definition css (prod : bool) :=
  ampCss unit prod dirname readFileSync less_render.

End Example.

(** ** Requests in sequence and the front of the middleware chain *)

(** What the router hands to the flat handler for one request. *)
Record Request : Type := {
  rq_ctx : Ctx;
  rq_path : string;
  rq_rest : option string;
}.

(** The stylesheet a reply was rendered with, if it rendered a scope that
    has one. *)
Definition styles_of {Days : Type} (r : reply Days) : option string :=
  match rendered (trace r) with
  | Some (_, ScopeLocals scope) => sc_styles scope
  | _ => None
  end.

(** A middleware followed by the next one registered with [app.use]: the
    second runs when, and only when, the first ends in [next()], on the
    state the first left. *)
Definition compose {Days : Type} (m n : Ctx -> state -> reply Days)
    (ctx : Ctx) (st : state) : reply Days :=
  let r := m ctx st in
  match result r with
  | Next =>
      let r' := n ctx (final r) in
      Build_reply (trace r ++ trace r') (result r') (final r')
  | _ => r
  end.

Section Serving.

Variable Days : Type.
Variable isProd : bool.
Variable dirname : string.
Variable schedule : Schedule.
Variable calendar_days : Schedule -> Days.
Variable policy : bool -> string.
Variable readFileSync : string -> option string.
Variable readdirSync : string -> list string.
Variable less_render : string -> nat -> option string.

(** [prodAmpCss || fallbackProdAmpCss] (line 188): the stylesheet a request
    finds without compiling. *)
Definition cssOnHand (st : state) : option string :=
  match prodAmpCss isProd dirname readFileSync with
  | Some buf => Some buf
  | None => fallbackProdAmpCss st
  end.

(** The flat handler on one request. *)
Definition handle (rq : Request) (st : state) : reply Days :=
  flat_handler Days isProd dirname schedule calendar_days policy readFileSync
    readdirSync less_render (rq_ctx rq) (rq_path rq) (rq_rest rq) st.

(** The state after the flat handler served the requests one after the
    other. *)
Fixpoint run (reqs : list Request) (st : state) : state :=
  match reqs with
  | [] => st
  | rq :: reqs' => run reqs' (final (handle rq st))
  end.

(** The middlewares of lines 71-108 in their order of registration, in
    front of whatever is registered after them ([hbs.middleware], between
    the two, only installs [ctx.render] and goes on). *)
Definition dispatch (downstream : Ctx -> state -> reply Days)
    : Ctx -> state -> reply Days :=
  compose (sw_middleware Days isProd)
    (compose (toplevel_middleware Days isProd schedule) downstream).

End Serving.

(** Requests to run the handler on, and a preprocessor that rejects. *)
Module Traffic.

Definition talk : Request :=
  {| rq_ctx := Example.request "/keynote/42";
     rq_path := "keynote";
     rq_rest := Some "42" |}.

Definition home : Request :=
  {| rq_ctx := Example.request "/"; rq_path := ""; rq_rest := None |}.

Definition missing : Request :=
  {| rq_ctx := Example.request "/keynote/99";
     rq_path := "keynote";
     rq_rest := Some "99" |}.

Definition less_rejects (input : string) (n : nat) : option string := None.

(** A disk that holds the prebuilt stylesheet. *)
Definition prebuilt (file : string) : option string :=
  if String.eqb file "/srv/devsummit/res/amp.css"
  then Some "html{color:red}"
  else None.

Definition handle (prod : bool) :=
  handle unit prod Example.dirname Example.schedule Example.calendar_days Example.policy
    Example.readFileSync Example.readdirSync Example.less_render.

Definition run (prod : bool) :=
  run unit prod Example.dirname Example.schedule Example.calendar_days Example.policy
    Example.readFileSync Example.readdirSync Example.less_render.

Definition compiled : state :=
  {| fallbackProdAmpCss := Some "body{margin:0}"; lessCalls := 1 |}.

End Traffic.

(** The fixed paths the front of the chain answers itself. *)
Definition fixed_paths : list string :=
  ["/sw.js"; "/schedule.json"; "/googlec6dfdf23945d0d0c.html"; "/sitemap.xml"].

(** ** Strings: occurrences, prefixes and suffixes *)

(** [pat] occurs in [s] at index [k]. *)
Definition occurs_at (k : nat) (pat s : string) : Prop :=
  exists p q, s = p +:+ pat +:+ q /\ String.length p = k.

Module StringFacts.

Lemma length_app (a b : string) :
  String.length (a +:+ b) = (String.length a + String.length b)%nat.
Proof. induction a as [|c a IH]; simpl; [reflexivity | now rewrite IH]. Qed.

Lemma substring_0_0 (s : string) : substring 0 0 s = "".
Proof. destruct s; reflexivity. Qed.

Lemma substring_app_l (a b : string) : substring 0 (String.length a) (a +:+ b) = a.
Proof.
  induction a as [|c a IH]; simpl.
  - apply substring_0_0.
  - now rewrite IH.
Qed.

Lemma substring_all (s : string) : substring 0 (String.length s) s = s.
Proof. induction s as [|c s IH]; simpl; [reflexivity | now rewrite IH]. Qed.

Lemma substring_app_r (a b : string) :
  substring (String.length a) (String.length b) (a +:+ b) = b.
Proof.
  induction a as [|c a IH]; simpl; [apply substring_all | exact IH].
Qed.

Lemma substring_split (s : string) (k : nat) :
  (k <= String.length s)%nat ->
  s = substring 0 k s +:+ substring k (String.length s - k) s.
Proof.
  revert k. induction s as [|c s IH]; intros k Hk; simpl in *.
  - assert (k = 0%nat) by lia. subst k. reflexivity.
  - destruct k as [|k]; simpl.
    + f_equal. symmetry. apply substring_all.
    + f_equal. apply IH. lia.
Qed.

(** [String.prefix p s] holds exactly when [s] starts with [p]. *)
Lemma prefix_app (p s : string) :
  String.prefix p s = true <-> exists q, s = p +:+ q.
Proof.
  revert s. induction p as [|c p IH]; intros s; simpl.
  - split; [intros _; now exists s | intros _; now destruct s].
  - destruct s as [|d s].
    + split; [discriminate | intros [q Hq]; discriminate].
    + simpl. destruct (ascii_dec c d) as [->|Hne].
      * rewrite IH. split; intros [q Hq]; exists q; congruence.
      * split; [discriminate | intros [q Hq]; congruence].
Qed.

(** [s.endsWith(p)] holds exactly when [s] is some stem followed by [p]. *)
Lemma endsWith_app (s p : string) :
  JS.endsWith s p = true <-> exists stem, s = stem +:+ p.
Proof.
  unfold JS.endsWith. split.
  - destruct (Nat.leb_spec (String.length p) (String.length s)) as [Hle|]; [|discriminate].
    intros H. apply String.eqb_eq in H.
    exists (substring 0 (String.length s - String.length p) s).
    pose proof (substring_split s (String.length s - String.length p)) as E.
    replace (String.length s - (String.length s - String.length p))%nat
      with (String.length p) in E by lia.
    rewrite H in E. apply E. lia.
  - intros [stem ->]. rewrite length_app.
    destruct (Nat.leb_spec (String.length p) (String.length stem + String.length p))
      as [_|]; [|lia].
    replace (String.length stem + String.length p - String.length p)%nat
      with (String.length stem) by lia.
    rewrite substring_app_r. apply String.eqb_refl.
Qed.

(** The first character, read through [startsWith]. *)
Lemma get_0_startsWith (s : string) (c : ascii) :
  String.get 0 s = Some c <-> JS.startsWith s (String c "") = true.
Proof.
  unfold JS.startsWith. destruct s as [|d s]; simpl.
  - split; discriminate.
  - destruct (ascii_dec c d) as [->|Hne].
    + split; [intros _; now destruct s | reflexivity].
    + split; [intros [= ->]; contradiction | discriminate].
Qed.

Lemma occurs_at_0 (pat s : string) :
  occurs_at 0 pat s <-> String.prefix pat s = true.
Proof.
  rewrite prefix_app. split.
  - intros (p & q & -> & Hp). destruct p; [|discriminate]. now exists q.
  - intros [q ->]. now exists "", q.
Qed.

Lemma occurs_at_S (k : nat) (pat : string) (c : ascii) (s : string) :
  occurs_at (S k) pat (String c s) <-> occurs_at k pat s.
Proof.
  split.
  - intros (p & q & H & Hp). destruct p as [|d p]; [discriminate|].
    simpl in H, Hp. injection H as -> ->. exists p, q. split; [reflexivity | lia].
  - intros (p & q & -> & Hp). exists (String c p), q. simpl. split; [reflexivity | lia].
Qed.

Lemma occurs_at_empty (k : nat) (pat : string) :
  occurs_at k pat "" -> k = 0%nat /\ pat = "".
Proof.
  intros (p & q & H & Hp). destruct p; [|discriminate].
  destruct pat; [|discriminate]. simpl in Hp. auto.
Qed.

(** The scan returns the accumulator when [pat] does not occur in [s], and
    the offset of the last occurrence otherwise. *)
Lemma lastIndexOf_from_spec (s pat : string) :
  forall i acc,
    (JS.lastIndexOf_from i acc s pat = acc /\ forall k, ~ occurs_at k pat s)
    \/ (exists k, JS.lastIndexOf_from i acc s pat = i + Z.of_nat k
                  /\ occurs_at k pat s
                  /\ forall k', occurs_at k' pat s -> (k' <= k)%nat).
Proof.
  induction s as [|c s IH]; intros i acc.
  - cbn [JS.lastIndexOf_from]. destruct (String.prefix pat "") eqn:Hp.
    + right. exists 0%nat. split; [lia|]. split; [now apply occurs_at_0|].
      intros k' Hk'. apply occurs_at_empty in Hk'. lia.
    + left. split; [reflexivity|]. intros k Hk.
      destruct (occurs_at_empty _ _ Hk) as [-> ->]. discriminate.
  - cbn [JS.lastIndexOf_from].
    destruct (IH (i + 1) (if String.prefix pat (String c s) then i else acc))
      as [[Hr Hnone] | (k & Hr & Hocc & Hmax)].
    + rewrite Hr. destruct (String.prefix pat (String c s)) eqn:Hp.
      * right. exists 0%nat. split; [lia|]. split; [now apply occurs_at_0|].
        intros [|k'] Hk'; [lia|]. apply occurs_at_S in Hk'. now apply Hnone in Hk'.
      * left. split; [reflexivity|]. intros [|k] Hk.
        -- apply occurs_at_0 in Hk. congruence.
        -- apply occurs_at_S in Hk. now apply Hnone in Hk.
    + right. exists (S k). split; [lia|]. split; [now apply occurs_at_S|].
      intros [|k'] Hk'; [lia|]. apply occurs_at_S in Hk'. apply Hmax in Hk'. lia.
Qed.

Lemma lastIndexOf_none (s pat : string) :
  JS.lastIndexOf s pat = -1 <-> forall k, ~ occurs_at k pat s.
Proof.
  unfold JS.lastIndexOf.
  destruct (lastIndexOf_from_spec s pat 0 (-1)) as [[Hr Hnone] | (k & Hr & Hocc & _)].
  - tauto.
  - split; [lia | intros H; now apply H in Hocc].
Qed.

Lemma lastIndexOf_some (s pat : string) (k : nat) :
  occurs_at k pat s ->
  exists j, JS.lastIndexOf s pat = Z.of_nat j /\ occurs_at j pat s /\ (k <= j)%nat.
Proof.
  intros Hk. unfold JS.lastIndexOf.
  destruct (lastIndexOf_from_spec s pat 0 (-1)) as [[_ Hnone] | (j & Hr & Hocc & Hmax)].
  - now apply Hnone in Hk.
  - exists j. split; [lia|]. auto.
Qed.

(** [s.slice(0, k)] at an occurrence is what comes before it. *)
Lemma slice_prefix (p rest : string) :
  JS.slice (p +:+ rest) 0 (Z.of_nat (String.length p)) = p.
Proof.
  unfold JS.slice. rewrite length_app. simpl.
  replace (Z.to_nat (Z.min 0 _)) with 0%nat by lia.
  destruct (Z.ltb_spec (Z.of_nat (String.length p)) 0); [lia|].
  replace (Z.to_nat _) with (String.length p) by lia.
  apply substring_app_l.
Qed.

(** [arr.indexOf(x)] is [-1] exactly when [x] is not in the array. *)
Lemma indexOf_from_none (l : list string) (x : string) :
  forall i, 0 <= i -> JS.indexOf_from i l x = -1 <-> x ∉ l.
Proof.
  induction l as [|y l IH]; intros i Hi; simpl.
  - split; [intros _; apply not_elem_of_nil | reflexivity].
  - destruct (String.eqb_spec y x) as [->|Hne].
    + split; [lia | intros H; exfalso; apply H; left].
    + rewrite not_elem_of_cons, (IH (i + 1)) by lia.
      split; [intros H; split; [congruence | exact H] | intros [_ H]; exact H].
Qed.

Lemma indexOf_none (l : list string) (x : string) :
  JS.indexOf l x = -1 <-> x ∉ l.
Proof. apply indexOf_from_none. lia. Qed.

End StringFacts.

(** ** The mount prefix *)

Example mountUrl_mounted :
  mountUrl (Example.request "/schedule") = "/devsummit".
Proof. reflexivity. Qed.

Example mountUrl_last_occurrence :
  mountUrl {| ctx_path := "/a"; url := "/a";
              originalUrl := Some "/a/b/a"; host := None |} = "/a/b".
Proof. reflexivity. Qed.

(** C6. [mountUrl] returns the empty string when [originalUrl] is
    undefined, the empty string when the inner url does not occur in
    [originalUrl], and otherwise the part of [originalUrl] before the last
    occurrence of the inner url: it is followed by the inner url, and no
    occurrence starts further right. *)
Theorem mountUrl_spec (ctx : Ctx) :
  (originalUrl ctx = None -> mountUrl ctx = "")
  /\ (forall orig,
        originalUrl ctx = Some orig ->
        (forall p q, orig <> p +:+ url ctx +:+ q) ->
        mountUrl ctx = "")
  /\ (forall orig p q,
        originalUrl ctx = Some orig ->
        orig = p +:+ url ctx +:+ q ->
        (exists q', orig = mountUrl ctx +:+ url ctx +:+ q')
        /\ (String.length p <= String.length (mountUrl ctx))%nat).
Proof.
  unfold mountUrl. split; [|split].
  - now intros ->.
  - intros orig -> Hnone.
    assert (JS.lastIndexOf orig (url ctx) = -1) as ->; [|reflexivity].
    apply StringFacts.lastIndexOf_none. intros k (p & q & Hpq & _).
    now apply (Hnone p q).
  - intros orig p q -> Hpq.
    destruct (StringFacts.lastIndexOf_some orig (url ctx) (String.length p))
      as (j & -> & (p' & q' & Hocc & Hlen) & Hle).
    { now exists p, q. }
    destruct (Z.eqb_spec (Z.of_nat j) (-1)) as [|_]; [lia|].
    clear Hpq. subst orig j. rewrite StringFacts.slice_prefix.
    split; [now exists q' | lia].
Qed.

(** ** The Section List *)

Example sections_example :
  sections Example.dirname Example.readdirSync = [""; "keynote"; "schedule"].
Proof. reflexivity. Qed.

Lemma section_of_html (stem : string) :
  JS.startsWith (stem +:+ ".html") "_" = false ->
  JS.startsWith (stem +:+ ".html") "." = false ->
  section_of (stem +:+ ".html")
  = Some (if String.eqb stem "index" then "" else stem).
Proof.
  intros Hu Hd. unfold section_of.
  assert (JS.endsWith (stem +:+ ".html") ".html" = true) as ->.
  { apply StringFacts.endsWith_app. now exists stem. }
  rewrite !bool_decide_eq_false_2.
  - simpl. unfold JS.substr. rewrite StringFacts.length_app. simpl String.length.
    destruct (Z.ltb_spec 0 0); [lia|].
    replace (Z.to_nat (Z.min 0 _)) with 0%nat by lia.
    replace (Z.to_nat _) with (String.length stem) by lia.
    now rewrite StringFacts.substring_app_l.
  - rewrite StringFacts.get_0_startsWith. congruence.
  - rewrite StringFacts.get_0_startsWith. congruence.
Qed.

Lemma section_of_hidden (name : string) :
  JS.startsWith name "_" = true \/ JS.startsWith name "." = true ->
  section_of name = None.
Proof.
  intros H. unfold section_of.
  destruct H as [H|H]; apply StringFacts.get_0_startsWith in H; rewrite H;
    simpl; now rewrite andb_false_r.
Qed.

Lemma section_of_other (name : string) :
  JS.endsWith name ".html" = false -> section_of name = None.
Proof. intros H. unfold section_of. now rewrite H. Qed.

Lemma sections_of_middle (before after : list string) (name : string) :
  sections_of (before ++ name :: after)%list
  = (sections_of before ++ from_option (fun x => [x]) [] (section_of name)
       ++ sections_of after)%list.
Proof.
  unfold sections_of. rewrite omap_app. simpl.
  now destruct (section_of name).
Qed.

(** C8. The Section List is computed from the entries of the view
    directory, entry by entry and in their order: an entry whose name starts
    with [_] or [.] contributes nothing, the entry [index.html] contributes
    the empty string, and any other template [stem.html] contributes [stem];
    an entry that is no [.html] template contributes nothing. *)
Theorem sections_entries (dirname : string)
    (readdirSync : string -> list string)
    (before after : list string) (name : string) :
  readdirSync (dirname +:+ "/sections") = (before ++ name :: after)%list ->
  (JS.startsWith name "_" = true \/ JS.startsWith name "." = true ->
     sections dirname readdirSync
     = (sections_of before ++ sections_of after)%list)
  /\ (name = "index.html" ->
        sections dirname readdirSync
        = (sections_of before ++ "" :: sections_of after)%list)
  /\ (forall stem,
        name = stem +:+ ".html" ->
        JS.startsWith name "_" = false ->
        JS.startsWith name "." = false ->
        stem <> "index" ->
        sections dirname readdirSync
        = (sections_of before ++ stem :: sections_of after)%list)
  /\ (JS.endsWith name ".html" = false ->
        sections dirname readdirSync
     = (sections_of before ++ sections_of after)%list).
Proof.
  intros Hdir. unfold sections. rewrite Hdir, sections_of_middle.
  split; [|split; [|split]].
  - intros H. now rewrite (section_of_hidden name H).
  - intros ->. reflexivity.
  - intros stem -> Hu Hd Hne. rewrite (section_of_html stem Hu Hd).
    destruct (String.eqb_spec stem "index"); [contradiction | reflexivity].
  - intros H. now rewrite (section_of_other name H).
Qed.

Lemma sections_entries_witness :
  Example.readdirSync (Example.dirname +:+ "/sections")
  = (["_amp-session.html"; "_amp-speaker.html"; "_sitemap.html"; ".keep"]
       ++ "index.html" :: ["keynote.html"; "schedule.html"; "notes.txt"])%list
  /\ sections Example.dirname Example.readdirSync
     = (sections_of ["_amp-session.html"; "_amp-speaker.html"; "_sitemap.html"; ".keep"]
          ++ "" :: sections_of ["keynote.html"; "schedule.html"; "notes.txt"])%list.
Proof.
  split; [reflexivity|].
  refine (proj1 (proj2 (sections_entries Example.dirname Example.readdirSync
           ["_amp-session.html"; "_amp-speaker.html"; "_sitemap.html"; ".keep"]
           ["keynote.html"; "schedule.html"; "notes.txt"] "index.html" _)) _);
    reflexivity.
Defined.

(** ** The AMP stylesheet cache and the flat handler *)

Section HostProperties.

Variable Days : Type.
Variable isProd : bool.
Variable dirname : string.
Variable schedule : Schedule.
Variable calendar_days : Schedule -> Days.
Variable policy : bool -> string.
Variable readFileSync : string -> option string.
Variable readdirSync : string -> list string.
Variable less_render : string -> nat -> option string.

#[local] Abbreviation section_list := (sections dirname readdirSync).
#[local] Abbreviation policy_header := (policyHeader isProd policy).
#[local] Abbreviation prod_css := (prodAmpCss isProd dirname readFileSync).
#[local] Abbreviation amp_css :=
  (ampCss Days isProd dirname readFileSync less_render).
#[local] Abbreviation prefix_of := (site_prefix isProd).
#[local] Abbreviation handler_on sched :=
  (flat_handler Days isProd dirname sched calendar_days policy readFileSync
     readdirSync less_render).
#[local] Abbreviation handler := (handler_on schedule).

Lemma policy_then_render (hdr view : string) (data : locals Days) (seen : bool) :
  policy_before_render hdr seen
    [SetHeader "Feature-Policy" hdr; Render view data] = true.
Proof. simpl. now rewrite String.eqb_refl. Qed.

(** The stylesheet step only ever compiles and logs. *)
Lemma ampCss_trace (st : state) :
  forall hdr seen,
    policy_before_render hdr seen (amp_css st).1.1 = true
    /\ forall (t : list (event Days)),
         policy_before_render hdr seen ((amp_css st).1.1 ++ t)
         = policy_before_render hdr seen t.
Proof.
  intros hdr seen. unfold ampCss.
  destruct prod_css; [now split|].
  destruct (fallbackProdAmpCss st); [now split|].
  destruct (less_render _ _); [destruct isProd|]; now split.
Qed.

Lemma handler_unknown_section (ctx : Ctx) (path : string)
    (rest : option string) (st : state) :
  path ∉ section_list -> handler ctx path rest st = Build_reply [] Next st.
Proof.
  intros H. unfold flat_handler.
  apply StringFacts.indexOf_none in H. now rewrite H.
Qed.

Lemma handler_known_section (ctx : Ctx) (path : string) :
  path ∈ section_list -> (JS.indexOf section_list path =? -1) = false.
Proof.
  intros H. apply Z.eqb_neq. intros E.
  now apply StringFacts.indexOf_none in E.
Qed.

Lemma startsWith_nonempty (rest p : string) :
  JS.startsWith rest p = true -> p <> "" -> String.eqb rest "" = false.
Proof.
  intros H Hp. apply String.eqb_neq. intros ->.
  apply StringFacts.prefix_app in H as [q Hq]. destruct p; [congruence | discriminate].
Qed.

(** C4. A rest id that starts with [_] is declined whatever the maps
    hold: the handler calls [next()] and does nothing else. *)
Theorem underscore_id_declines (ctx : Ctx) (path rest : string) (st : state) :
  JS.startsWith rest "_" = true ->
  handler ctx path (Some rest) st = Build_reply [] Next st.
Proof.
  intros H. unfold flat_handler.
  destruct (JS.indexOf section_list path =? -1); [reflexivity|].
  rewrite (startsWith_nonempty rest "_" H) by discriminate.
  destruct (lookup_entity schedule rest) as [[data view] cls].
  now rewrite H, orb_true_r.
Qed.

Lemma lookup_entity_absent (rest : string) :
  sessions schedule !! rest = None ->
  speakers schedule !! rest = None ->
  inherited rest = VUndef ->
  lookup_entity schedule rest = (VUndef, "_amp-speaker", "speaker-popup").
Proof.
  intros H1 H2 H3. unfold lookup_entity, get. now rewrite H1, H2, H3.
Qed.

(** X17. A request whose path is not in the Section List, or whose rest
    segment is a key of neither map and not the name of a property that
    objects inherit, is declined: the handler calls [next()] and does
    nothing else. *)
Theorem unknown_request_declines (ctx : Ctx) (path : string)
    (rest : option string) (st : state) :
  path ∉ section_list
  \/ (exists r, rest = Some r /\ r <> ""
                /\ sessions schedule !! r = None
                /\ speakers schedule !! r = None
                /\ inherited r = VUndef) ->
  handler ctx path rest st = Build_reply [] Next st.
Proof.
  intros [H | (r & -> & Hr & Hs & Hp & Hi)].
  - now apply handler_unknown_section.
  - unfold flat_handler.
    destruct (JS.indexOf section_list path =? -1); [reflexivity|].
    apply String.eqb_neq in Hr. rewrite Hr.
    now rewrite (lookup_entity_absent r Hs Hp Hi).
Qed.

Lemma lookup_entity_view (rest : string) :
  (lookup_entity schedule rest).1.2 = "_amp-session"
  \/ (lookup_entity schedule rest).1.2 = "_amp-speaker".
Proof.
  unfold lookup_entity.
  destruct (negb (truthy (get (sessions schedule) rest))); simpl; auto.
Qed.

(** What the handler does once an entity is found. *)
Lemma handler_entity (ctx : Ctx) (path rest : string) (st st' : state)
    (data : value) (view cls css : string) (pre : list (event Days)) :
  path ∈ section_list ->
  rest <> "" ->
  lookup_entity schedule rest = (data, view, cls) ->
  truthy data = true ->
  JS.startsWith rest "_" = false ->
  amp_css st = (pre, Some css, st') ->
  exists scope,
    handler ctx path (Some rest) st
    = Build_reply
        (pre ++ [SetHeader "Feature-Policy" policy_header;
                 Render (if String.eqb view "" then "index" else view)
                        (ScopeLocals scope)])
        Done st'
    /\ sc_layout scope = "amp"
    /\ sc_id scope = Some rest
    /\ sc_bodyClass scope = Some cls
    /\ sc_sitePrefix scope = Some (prefix_of ctx)
    /\ sc_title scope = Some (js_or (field data "name") (VStr ""))
    /\ sc_time_label scope = Some (js_or (field data "time_label") (VStr ""))
    /\ sc_description scope
       = Some (js_or (field data "description") (VStr ""))
    /\ sc_youtube_id scope
       = Some (js_or (field data "youtube_id") (VBool false))
    /\ sc_payload scope = Some data
    /\ sc_styles scope = Some css
    /\ sc_canonicalUrl scope
       = (prefix_of ctx +:+ "/" +:+ path) +:+ "/" +:+ rest.
Proof.
  intros Hpath Hrest Hlook Hdata Hu Hcss. unfold flat_handler.
  rewrite (handler_known_section ctx path Hpath).
  apply String.eqb_neq in Hrest. rewrite Hrest, Hlook, Hdata, Hu, Hcss.
  simpl. eexists. split; [reflexivity|]. simpl. repeat split.
Qed.

(** C9. When an entity is resolved (the lookup yields a truthy record for
    an id that does not start with [_]) and the AMP stylesheet is obtained,
    the handler renders the entity's view with a scope whose layout is
    [amp], whose id is the rest segment, with the body class of the lookup,
    the site prefix, title, time label and description taken from the record
    or empty, [youtube_id] taken from the record or [false], the record as
    payload, the stylesheet as styles, and a canonical URL extended with
    [/rest]. *)
Theorem entity_view_scope (ctx : Ctx) (path rest : string) (st st' : state)
    (data : value) (view cls css : string) (pre : list (event Days)) :
  path ∈ section_list ->
  rest <> "" ->
  lookup_entity schedule rest = (data, view, cls) ->
  truthy data = true ->
  JS.startsWith rest "_" = false ->
  amp_css st = (pre, Some css, st') ->
  exists scope,
    handler ctx path (Some rest) st
    = Build_reply
        (pre ++ [SetHeader "Feature-Policy" policy_header;
                 Render view (ScopeLocals scope)])
        Done st'
    /\ sc_layout scope = "amp"
    /\ sc_id scope = Some rest
    /\ sc_bodyClass scope = Some cls
    /\ sc_sitePrefix scope = Some (prefix_of ctx)
    /\ sc_title scope = Some (js_or (field data "name") (VStr ""))
    /\ sc_time_label scope = Some (js_or (field data "time_label") (VStr ""))
    /\ sc_description scope = Some (js_or (field data "description") (VStr ""))
    /\ sc_youtube_id scope
       = Some (js_or (field data "youtube_id") (VBool false))
    /\ sc_payload scope = Some data
    /\ sc_styles scope = Some css
    /\ sc_canonicalUrl scope
       = (prefix_of ctx +:+ "/" +:+ path) +:+ "/" +:+ rest.
Proof.
  intros Hpath Hrest Hlook Hdata Hu Hcss.
  destruct (handler_entity ctx path rest st st' data view cls css pre)
    as (scope & Hrun & Hfields); try assumption.
  exists scope. split; [|exact Hfields].
  rewrite Hrun. destruct (lookup_entity_view rest) as [E|E];
    rewrite Hlook in E; simpl in E; now subst view.
Qed.

(** C1, as the handler has it. For a valid section path and a non-empty
    rest id that does not start with [_], a truthy record under that id in
    the sessions map is the one resolved, whatever the speakers map holds:
    once the AMP stylesheet is obtained the handler renders [_amp-session]
    with body class [schedule-popup] and that record as payload. *)
Theorem session_lookup_wins (ctx : Ctx) (path rest : string) (st st' : state)
    (data : value) (css : string) (pre : list (event Days)) :
  path ∈ section_list ->
  rest <> "" ->
  JS.startsWith rest "_" = false ->
  sessions schedule !! rest = Some data ->
  truthy data = true ->
  amp_css st = (pre, Some css, st') ->
  exists scope,
    handler ctx path (Some rest) st
    = Build_reply
        (pre ++ [SetHeader "Feature-Policy" policy_header;
                 Render "_amp-session" (ScopeLocals scope)])
        Done st'
    /\ sc_bodyClass scope = Some "schedule-popup"
    /\ sc_payload scope = Some data.
Proof.
  intros Hpath Hrest Hu Hs Hdata Hcss.
  destruct (handler_entity ctx path rest st st' data "_amp-session"
              "schedule-popup" css pre)
    as (scope & Hrun & Hfields); try assumption.
  - unfold lookup_entity, get. rewrite Hs. simpl. now rewrite Hdata.
  - exists scope. split; [exact Hrun|]. tauto.
Qed.


(** C3, as the module has it. Whatever the request, every render of the
    flat handler happens after it set [Feature-Policy] to the policy string
    of the mode; the render of [/sitemap.xml] sets the content type only. *)
Theorem flat_handler_sets_policy :
  (forall ctx path rest st,
     policy_before_render (policy isProd) false
       (trace (handler ctx path rest st)) = true)
  /\ (forall ctx st,
        ctx_path ctx = "/sitemap.xml" ->
        trace (toplevel_middleware Days isProd schedule ctx st)
        = [SetType "text/xml";
           Render "_sitemap" (SitemapLocals schedule (prefix_of ctx))]).
Proof.
  split.
  - intros ctx path rest st. unfold flat_handler.
    destruct (JS.indexOf section_list path =? -1); [reflexivity|].
    destruct rest as [rest|]; [|apply policy_then_render].
    destruct (String.eqb rest ""); [apply policy_then_render|].
    destruct (lookup_entity schedule rest) as [[data view] cls].
    destruct (negb (truthy data) || JS.startsWith rest "_"); [reflexivity|].
    destruct (ampCss_trace st (policy isProd) false) as [Hpre Happ].
    destruct (amp_css st) as [[pre [css|]] st']; cbn [fst snd trace] in *.
    + rewrite Happ. apply policy_then_render.
    + exact Hpre.
  - intros ctx st Hpath. unfold toplevel_middleware. now rewrite Hpath.
Qed.

(** C7. In production mode, when the stylesheet step has returned a
    stylesheet, running it again returns the same stylesheet from the cache:
    the preprocessor is not invoked and the state does not change. *)
Theorem production_css_cached (st st' : state) (css : string)
    (pre : list (event Days)) :
  isProd = true ->
  amp_css st = (pre, Some css, st') ->
  amp_css st' = ([], Some css, st').
Proof.
  intros Hprod. unfold ampCss. rewrite Hprod.
  destruct (prodAmpCss true dirname readFileSync) as [buf|].
  - now intros [= <- <- <-].
  - destruct (fallbackProdAmpCss st) as [c|] eqn:Hfall.
    + intros [= <- <- <-]. now rewrite Hfall.
    + destruct (less_render _ _); [|discriminate].
      now intros [= <- <- <-].
Qed.

End HostProperties.

(** ** The module on the example deployment *)

Lemma keynote_is_section :
  "keynote" ∈ sections Example.dirname Example.readdirSync.
Proof. rewrite sections_example. set_solver. Qed.

Lemma mountUrl_spec_witness :
  exists q',
    "/devsummit/schedule"
    = mountUrl (Example.request "/schedule") +:+ "/schedule" +:+ q'.
Proof.
  exact (proj1 (proj2 (proj2 (mountUrl_spec (Example.request "/schedule")))
                  "/devsummit/schedule" "/devsummit" "" eq_refl eq_refl)).
Defined.

(** The dataset of the specification: [rest = "42"] under the section
    [keynote] renders the session popup, with the record named [Talk] as
    payload. *)
Lemma session_lookup_wins_witness :
  field Example.talk "name" = VStr "Talk"
  /\ exists scope,
       Example.handler false Example.schedule (Example.request "/keynote/42")
         "keynote" (Some "42") Example.fresh
       = Build_reply
           ([LessRender "@import '/srv/devsummit/static/styles/amp.less';"]
              ++ [SetHeader "Feature-Policy" "sync-xhr 'self'";
                  Render "_amp-session" (ScopeLocals scope)])
           Done {| fallbackProdAmpCss := None; lessCalls := 1 |}
       /\ sc_bodyClass scope = Some "schedule-popup"
       /\ sc_payload scope = Some Example.talk.
Proof.
  split; [reflexivity|].
  apply (session_lookup_wins unit false Example.dirname Example.schedule Example.calendar_days
           Example.policy Example.readFileSync Example.readdirSync
           Example.less_render (Example.request "/keynote/42") "keynote" "42"
           Example.fresh {| fallbackProdAmpCss := None; lessCalls := 1 |}
           Example.talk "body{margin:0}").
  - exact keynote_is_section.
  - discriminate.
  - reflexivity.
  - reflexivity.
  - reflexivity.
  - reflexivity.
Defined.

(** C1 fails as stated at an id held by both maps: [_draft] is declined
    instead of rendered as a session, and [7], whose session is [null], is
    rendered as a speaker. *)
Lemma session_lookup_wins_counterexample :
  sessions Example.schedule_both !! "_draft" = Some Example.talk
  /\ speakers Example.schedule_both !! "_draft" = Some Example.jane
  /\ Example.handler false Example.schedule_both
       (Example.request "/keynote/_draft") "keynote" (Some "_draft")
       Example.fresh
     = Build_reply [] Next Example.fresh
  /\ sessions Example.schedule_both !! "7" = Some VNull
  /\ speakers Example.schedule_both !! "7" = Some Example.jane
  /\ fst <$> rendered (trace (Example.handler false Example.schedule_both
                                (Example.request "/keynote/7") "keynote"
                                (Some "7") Example.fresh))
     = Some "_amp-speaker".
Proof. repeat split; vm_compute; reflexivity. Qed.

(** C2 fails as stated outside production: after a first compilation the
    fallback slot is still empty, and the next request invokes the
    preprocessor again. *)
Lemma fallback_persisted_counterexample :
  Example.css false Example.fresh
  = ([LessRender "@import '/srv/devsummit/static/styles/amp.less';"],
     Some "body{margin:0}",
     {| fallbackProdAmpCss := None; lessCalls := 1 |})
  /\ Example.css false {| fallbackProdAmpCss := None; lessCalls := 1 |}
     = ([LessRender "@import '/srv/devsummit/static/styles/amp.less';"],
        Some "body{margin:0}/*again*/",
        {| fallbackProdAmpCss := None; lessCalls := 2 |}).
Proof. split; reflexivity. Qed.

(** C3 fails as stated on [/sitemap.xml]: the sitemap is rendered without
    the [Feature-Policy] header having been set. *)
Lemma sitemap_render_counterexample :
  trace (Example.toplevel true Example.schedule
           (Example.request "/sitemap.xml") Example.fresh)
  = [SetType "text/xml";
     Render "_sitemap"
       (SitemapLocals Example.schedule "https://example.com/devsummit")]
  /\ policy_before_render (Example.policy true) false
       (trace (Example.toplevel true Example.schedule
                 (Example.request "/sitemap.xml") Example.fresh))
     = false.
Proof. split; reflexivity. Qed.

Lemma underscore_id_declines_witness :
  JS.startsWith "_draft" "_" = true
  /\ Example.handler true Example.schedule_both
       (Example.request "/keynote/_draft") "keynote" (Some "_draft")
       Example.fresh
     = Build_reply [] Next Example.fresh.
Proof.
  split; [reflexivity|].
  apply (underscore_id_declines unit true Example.dirname
           Example.schedule_both Example.calendar_days Example.policy Example.readFileSync
           Example.readdirSync Example.less_render). reflexivity.
Defined.

Lemma production_css_cached_witness :
  Example.css true Example.fresh
  = ([LessRender "@import '/srv/devsummit/static/styles/amp.less';";
      ConsoleDebug 14],
     Some "body{margin:0}",
     {| fallbackProdAmpCss := Some "body{margin:0}"; lessCalls := 1 |})
  /\ Example.css true
       {| fallbackProdAmpCss := Some "body{margin:0}"; lessCalls := 1 |}
     = ([], Some "body{margin:0}",
        {| fallbackProdAmpCss := Some "body{margin:0}"; lessCalls := 1 |}).
Proof.
  split; [reflexivity|].
  apply (production_css_cached unit true Example.dirname Example.readFileSync
           Example.less_render Example.fresh _ "body{margin:0}"
           [LessRender "@import '/srv/devsummit/static/styles/amp.less';";
            ConsoleDebug 14]); reflexivity.
Defined.

Lemma entity_view_scope_witness :
  exists scope,
    Example.handler true Example.schedule_both (Example.request "/keynote/7")
      "keynote" (Some "7") Example.fresh
    = Build_reply
        ([LessRender "@import '/srv/devsummit/static/styles/amp.less';";
          ConsoleDebug 14]
           ++ [SetHeader "Feature-Policy" "sync-xhr 'none'";
               Render "_amp-speaker" (ScopeLocals scope)])
        Done {| fallbackProdAmpCss := Some "body{margin:0}"; lessCalls := 1 |}
    /\ sc_layout scope = "amp"
    /\ sc_id scope = Some "7"
    /\ sc_bodyClass scope = Some "speaker-popup"
    /\ sc_sitePrefix scope = Some "https://example.com/devsummit"
    /\ sc_title scope = Some (VStr "Jane")
    /\ sc_time_label scope = Some (VStr "")
    /\ sc_description scope = Some (VStr "")
    /\ sc_youtube_id scope = Some (VBool false)
    /\ sc_payload scope = Some Example.jane
    /\ sc_styles scope = Some "body{margin:0}"
    /\ sc_canonicalUrl scope = "https://example.com/devsummit/keynote/7".
Proof.
  apply (entity_view_scope unit true Example.dirname Example.schedule_both Example.calendar_days
           Example.policy Example.readFileSync Example.readdirSync
           Example.less_render (Example.request "/keynote/7") "keynote" "7"
           Example.fresh
           {| fallbackProdAmpCss := Some "body{margin:0}"; lessCalls := 1 |}
           Example.jane "_amp-speaker" "speaker-popup" "body{margin:0}").
  - exact keynote_is_section.
  - discriminate.
  - reflexivity.
  - reflexivity.
  - reflexivity.
  - reflexivity.
Defined.

(** ** More on the mount prefix *)

Lemma append_nil_r (a : string) : a +:+ "" = a.
Proof. induction a as [|c a IH]; simpl; [reflexivity | now rewrite IH]. Qed.

(** An occurrence fits in the string. *)
Lemma occurs_at_bound (k : nat) (pat s : string) :
  occurs_at k pat s -> (k + String.length pat <= String.length s)%nat.
Proof.
  intros (p & q & -> & <-). rewrite !StringFacts.length_app. lia.
Qed.

(** The last occurrence of [u] in [m +:+ u] is the one at the end. *)
Lemma lastIndexOf_suffix (m u : string) :
  JS.lastIndexOf (m +:+ u) u = Z.of_nat (String.length m).
Proof.
  destruct (StringFacts.lastIndexOf_some (m +:+ u) u (String.length m))
    as (j & -> & Hocc & Hle).
  { exists m, "". now rewrite append_nil_r. }
  apply occurs_at_bound in Hocc. rewrite StringFacts.length_app in Hocc. lia.
Qed.

(** X1. Mounted under a prefix [m], that is with [originalUrl] being [m]
    followed by the inner url, [mountUrl] gives [m] back, whatever [m] and
    the inner url are. *)
Theorem mountUrl_round_trip (ctx : Ctx) (m : string) :
  originalUrl ctx = Some (m +:+ url ctx) -> mountUrl ctx = m.
Proof.
  intros H. unfold mountUrl. rewrite H, lastIndexOf_suffix.
  destruct (Z.eqb_spec (Z.of_nat (String.length m)) (-1)) as [|_]; [lia|].
  apply StringFacts.slice_prefix.
Qed.

Lemma mountUrl_round_trip_witness :
  mountUrl {| ctx_path := "/schedule/42"; url := "/schedule/42?x=/schedule/42";
              originalUrl := Some "/devsummit/2019/schedule/42?x=/schedule/42";
              host := None |}
  = "/devsummit/2019".
Proof.
  apply (mountUrl_round_trip
           {| ctx_path := "/schedule/42"; url := "/schedule/42?x=/schedule/42";
              originalUrl := Some "/devsummit/2019/schedule/42?x=/schedule/42";
              host := None |} "/devsummit/2019").
  reflexivity.
Defined.

(** X2. Whatever the two urls are, the mount prefix is a prefix of
    [originalUrl]: it never holds anything the inbound url does not start
    with. *)
Theorem mountUrl_is_prefix (ctx : Ctx) (orig : string) :
  originalUrl ctx = Some orig -> exists rest, orig = mountUrl ctx +:+ rest.
Proof.
  intros H. unfold mountUrl. rewrite H. unfold JS.lastIndexOf.
  destruct (StringFacts.lastIndexOf_from_spec orig (url ctx) 0 (-1))
    as [[-> _] | (k & -> & (p & q & Hocc & Hlen) & _)].
  - now exists orig.
  - destruct (Z.eqb_spec (0 + Z.of_nat k) (-1)) as [|_]; [lia|].
    exists (url ctx +:+ q). subst orig k.
    now rewrite Z.add_0_l, StringFacts.slice_prefix.
Qed.

Lemma mountUrl_is_prefix_witness :
  exists rest,
    "/a/b/a" = mountUrl {| ctx_path := "/a"; url := "/a";
                           originalUrl := Some "/a/b/a"; host := None |}
               +:+ rest.
Proof.
  apply (mountUrl_is_prefix {| ctx_path := "/a"; url := "/a";
                               originalUrl := Some "/a/b/a"; host := None |}).
  reflexivity.
Defined.

(** ** More on the Section List *)

Lemma prefix_nil (s : string) : String.prefix "" s = true.
Proof. now destruct s. Qed.

(** The first character of a non-empty string is that of whatever it is
    extended to. *)
Lemma startsWith_app_char (x y : string) (c : ascii) :
  x <> "" ->
  JS.startsWith (x +:+ y) (String c "") = JS.startsWith x (String c "").
Proof.
  intros Hx. destruct x as [|d x]; [contradiction|].
  unfold JS.startsWith. simpl. destruct (ascii_dec c d); [|reflexivity].
  now rewrite !prefix_nil.
Qed.

(** What a directory entry must be to stand for the section [x]. *)
Lemma section_of_Some (name x : string) :
  section_of name = Some x <->
  (x = "" /\ name = "index.html")
  \/ (x <> "" /\ x <> "index"
      /\ JS.startsWith x "_" = false /\ JS.startsWith x "." = false
      /\ name = x +:+ ".html").
Proof.
  split.
  - intros H.
    destruct (JS.endsWith name ".html") eqn:He;
      [|rewrite (section_of_other name He) in H; discriminate].
    destruct (JS.startsWith name "_") eqn:Hu;
      [rewrite (section_of_hidden name (or_introl Hu)) in H; discriminate|].
    destruct (JS.startsWith name ".") eqn:Hd;
      [rewrite (section_of_hidden name (or_intror Hd)) in H; discriminate|].
    apply StringFacts.endsWith_app in He as [stem ->].
    rewrite (section_of_html stem Hu Hd) in H.
    destruct (String.eqb_spec stem "index") as [Heq|Hne].
    + left. subst stem. split; [congruence | reflexivity].
    + injection H as <-. right.
      assert (stem <> "") as Hs by (intros ->; discriminate).
      rewrite (startsWith_app_char stem ".html" "_" Hs) in Hu.
      rewrite (startsWith_app_char stem ".html" "." Hs) in Hd.
      auto.
  - intros [[-> ->] | (Hx & Hi & Hu & Hd & ->)]; [reflexivity|].
    rewrite section_of_html.
    + now destruct (String.eqb_spec x "index").
    + now rewrite startsWith_app_char.
    + now rewrite startsWith_app_char.
Qed.

(** X3. The Section List as a set: it holds the empty string exactly when
    the directory has [index.html], and a non-empty [x] exactly when [x] is
    not [index], starts with neither [_] nor [.], and the directory has
    [x.html]. *)
Theorem sections_membership (entries : list string) (x : string) :
  x ∈ sections_of entries <->
  (x = "" /\ "index.html" ∈ entries)
  \/ (x <> "" /\ x <> "index"
      /\ JS.startsWith x "_" = false /\ JS.startsWith x "." = false
      /\ (x +:+ ".html") ∈ entries).
Proof.
  unfold sections_of. rewrite list_elem_of_omap. split.
  - intros (name & Hin & H). apply section_of_Some in H.
    destruct H as [[-> ->] | (Hx & Hi & Hu & Hd & ->)]; [left | right]; auto.
  - intros [[-> Hin] | (Hx & Hi & Hu & Hd & Hin)].
    + exists "index.html". split; [exact Hin | reflexivity].
    + exists (x +:+ ".html"). split; [exact Hin|].
      apply section_of_Some. right. auto.
Qed.

(** No section is hidden, and none is called [index]. *)
Lemma sections_of_visible (entries : list string) (x : string) :
  x ∈ sections_of entries ->
  JS.startsWith x "_" = false /\ JS.startsWith x "." = false /\ x <> "index".
Proof.
  unfold sections_of. rewrite list_elem_of_omap.
  intros (name & _ & H). apply section_of_Some in H.
  destruct H as [[-> _] | (_ & Hi & Hu & Hd & _)]; [|auto].
  repeat split; discriminate.
Qed.

(** Two entries never stand for the same section. *)
Lemma section_of_inj (a b x : string) :
  section_of a = Some x -> section_of b = Some x -> a = b.
Proof.
  rewrite !section_of_Some.
  intros [[-> ->] | (Hx & _ & _ & _ & ->)] [[E ->] | (Hx' & _ & _ & _ & ->)];
    congruence.
Qed.

(** X4. A directory without repeated names gives a Section List without
    repeated sections: each section comes from one template. *)
Theorem sections_NoDup (entries : list string) :
  NoDup entries -> NoDup (sections_of entries).
Proof.
  unfold sections_of. induction 1 as [|a l Ha Hl IH]; simpl.
  - constructor.
  - destruct (section_of a) as [x|] eqn:E; [|exact IH].
    constructor; [|exact IH].
    rewrite list_elem_of_omap. intros (b & Hb & Eb).
    apply Ha. now rewrite (section_of_inj a b x E Eb).
Qed.

Lemma sections_NoDup_witness :
  NoDup (sections Example.dirname Example.readdirSync).
Proof.
  apply (sections_NoDup Example.entries).
  apply (bool_decide_unpack _). vm_compute. exact I.
Defined.

(** ** The flat handler, whatever the request *)

Section ServingProperties.

Variable Days : Type.
Variable isProd : bool.
Variable dirname : string.
Variable schedule : Schedule.
Variable calendar_days : Schedule -> Days.
Variable policy : bool -> string.
Variable readFileSync : string -> option string.
Variable readdirSync : string -> list string.
Variable less_render : string -> nat -> option string.

#[local] Abbreviation the_sections := (sections dirname readdirSync).
#[local] Abbreviation the_header := (policyHeader isProd policy).
#[local] Abbreviation the_css :=
  (ampCss Days isProd dirname readFileSync less_render).
#[local] Abbreviation on_hand := (cssOnHand isProd dirname readFileSync).
#[local] Abbreviation the_prefix := (site_prefix isProd).
#[local] Abbreviation serve_on sched :=
  (flat_handler Days isProd dirname sched calendar_days policy readFileSync
     readdirSync less_render).
#[local] Abbreviation serve := (serve_on schedule).
#[local] Abbreviation handle_rq :=
  (handle Days isProd dirname schedule calendar_days policy readFileSync readdirSync
     less_render).
#[local] Abbreviation run_all :=
  (run Days isProd dirname schedule calendar_days policy readFileSync readdirSync
     less_render).
#[local] Abbreviation less_input :=
  ("@import '" +:+ (dirname +:+ "/static/styles/amp.less") +:+ "';").

(** The stylesheet step, case by case. *)
Lemma ampCss_cases (st : state) :
  (exists css, on_hand st = Some css /\ the_css st = ([], Some css, st))
  \/ (on_hand st = None
      /\ less_render less_input (lessCalls st) = None
      /\ the_css st
         = ([LessRender less_input], None,
            {| fallbackProdAmpCss := fallbackProdAmpCss st;
               lessCalls := S (lessCalls st) |}))
  \/ (exists css,
        on_hand st = None
        /\ less_render less_input (lessCalls st) = Some css
        /\ the_css st
           = (if isProd
              then [LessRender less_input; ConsoleDebug (String.length css)]
              else [LessRender less_input],
              Some css,
              {| fallbackProdAmpCss :=
                   if isProd then Some css else fallbackProdAmpCss st;
                 lessCalls := S (lessCalls st) |})).
Proof.
  unfold ampCss, cssOnHand.
  destruct (prodAmpCss isProd dirname readFileSync) as [buf|].
  { left. now exists buf. }
  destruct (fallbackProdAmpCss st) as [c|] eqn:Hf.
  { left. now exists c. }
  right. destruct (less_render less_input (lessCalls st)) as [css|].
  - right. exists css. now destruct isProd.
  - now left.
Qed.

(** The four ways the flat handler ends. *)
Lemma handler_cases (ctx : Ctx) (path : string) (rest : option string)
    (st : state) :
  serve ctx path rest st = Build_reply [] Next st
  \/ (exists scope,
        path ∈ the_sections
        /\ (rest = None \/ rest = Some "")
        /\ serve ctx path rest st
           = Build_reply
               [SetHeader "Feature-Policy" the_header;
                Render (if String.eqb path "" then "index" else path)
                       (ScopeLocals scope)]
               Done st
        /\ sc_layout scope = "devsummit"
        /\ sc_path scope = path
        /\ sc_canonicalUrl scope = the_prefix ctx +:+ "/" +:+ path
        /\ sc_id scope = None
        /\ sc_payload scope = None
        /\ sc_styles scope = None)
  \/ (exists r pre st',
        rest = Some r
        /\ the_css st = (pre, None, st')
        /\ serve ctx path rest st = Build_reply pre Threw st')
  \/ (exists r data view cls pre css st' scope,
        path ∈ the_sections
        /\ rest = Some r
        /\ r <> ""
        /\ JS.startsWith r "_" = false
        /\ lookup_entity schedule r = (data, view, cls)
        /\ truthy data = true
        /\ the_css st = (pre, Some css, st')
        /\ serve ctx path rest st
           = Build_reply
               (pre ++ [SetHeader "Feature-Policy" the_header;
                        Render view (ScopeLocals scope)])
               Done st'
        /\ sc_layout scope = "amp"
        /\ sc_path scope = path
        /\ sc_id scope = Some r
        /\ sc_payload scope = Some data
        /\ sc_styles scope = Some css).
Proof.
  unfold flat_handler.
  destruct (Z.eqb_spec (JS.indexOf the_sections path) (-1)) as [|Hin];
    [now left|].
  assert (path ∈ the_sections) as Hpath.
  { destruct (decide (path ∈ the_sections)) as [|Hn]; [assumption|].
    now apply StringFacts.indexOf_none in Hn. }
  destruct rest as [r|]; [destruct (String.eqb_spec r "") as [->|Hr]|].
  - right; left. eexists. split; [exact Hpath|]. split; [now right|].
    split; [reflexivity|]. simpl. repeat split.
  - destruct (lookup_entity schedule r) as [[data view] cls] eqn:Hlook.
    destruct (truthy data) eqn:Hdata; simpl; [|now left].
    destruct (JS.startsWith r "_") eqn:Hu; [now left|].
    destruct (the_css st) as [[pre [css|]] st'] eqn:Hcss.
    + right; right; right.
      exists r, data, view, cls, pre, css, st'. eexists.
      repeat (split; [first [assumption | reflexivity]|]).
      split.
      * destruct (lookup_entity_view schedule r) as [E|E];
          rewrite Hlook in E; simpl in E; subst view; reflexivity.
      * simpl. repeat split.
    + right; right; left. now exists r, pre, st'.
  - right; left. eexists. split; [exact Hpath|]. split; [now left|].
    split; [reflexivity|]. simpl. repeat split.
Qed.

(** X5. A path that starts with [_] or [.], or is [index], is never served:
    whatever the directory, the dataset, the rest segment and the state, the
    handler declines it. The popup and sitemap templates cannot be asked for
    as sections, and the root section answers to the empty path only. *)
Theorem hidden_path_declines (ctx : Ctx) (path : string)
    (rest : option string) (st : state) :
  JS.startsWith path "_" = true \/ JS.startsWith path "." = true
  \/ path = "index" ->
  serve ctx path rest st = Build_reply [] Next st.
Proof.
  intros H. apply handler_unknown_section. intros Hin.
  apply sections_of_visible in Hin as (Hu & Hd & Hi).
  destruct H as [H | [H | H]]; congruence.
Qed.

(** X6. A request for a section without a rest segment ([undefined] or
    empty) is answered from the path: the header is set, the view is the
    path, or [index] for the root, the layout is [devsummit], no entity
    field is set, and the state is left as it was. The dataset enters the
    reply through the Day list only. *)
Theorem section_page (ctx : Ctx) (path : string) (rest : option string)
    (st : state) :
  path ∈ the_sections ->
  rest = None \/ rest = Some "" ->
  (exists scope,
     serve ctx path rest st
     = Build_reply
         [SetHeader "Feature-Policy" (policy isProd);
          Render (if String.eqb path "" then "index" else path)
                 (ScopeLocals scope)]
         Done st
     /\ sc_layout scope = "devsummit"
     /\ sc_path scope = path
     /\ sc_base scope = mountUrl ctx
     /\ sc_canonicalUrl scope = the_prefix ctx +:+ "/" +:+ path
     /\ sc_days scope = calendar_days schedule
     /\ sc_id scope = None
     /\ sc_payload scope = None
     /\ sc_styles scope = None)
  /\ forall sched,
       calendar_days sched = calendar_days schedule ->
       serve_on sched ctx path rest st = serve ctx path rest st.
Proof.
  intros Hpath Hrest. unfold flat_handler.
  rewrite (handler_known_section dirname readdirSync ctx path Hpath).
  destruct Hrest as [-> | ->]; simpl.
  - split.
    + eexists. split; [reflexivity|]. simpl. repeat split.
    + intros sched Hd. unfold days. now rewrite Hd.
  - split.
    + eexists. split; [reflexivity|]. simpl. repeat split.
    + intros sched Hd. unfold days. now rewrite Hd.
Qed.

(** X7. Declining leaves no trace: whenever the handler ends in [next()],
    it has set no header, rendered nothing, not invoked the preprocessor and
    left the state as it was. *)
Theorem decline_is_silent (ctx : Ctx) (path : string) (rest : option string)
    (st : state) :
  result (serve ctx path rest st) = Next ->
  serve ctx path rest st = Build_reply [] Next st.
Proof.
  intros H.
  destruct (handler_cases ctx path rest st)
    as [E | [(sc & _ & _ & E & _) | [(r & pre & st' & _ & _ & E)
       | (r & d & v & c & pre & css & st' & sc & _ & _ & _ & _ & _ & _ & _ & E & _)]]];
    rewrite E in H |- *; first [reflexivity | discriminate].
Qed.

Lemma on_hand_None (st : state) :
  on_hand st = None ->
  prodAmpCss isProd dirname readFileSync = None
  /\ fallbackProdAmpCss st = None.
Proof.
  unfold cssOnHand.
  destruct (prodAmpCss isProd dirname readFileSync); [discriminate | auto].
Qed.

(** X8. When an entity is resolved, no stylesheet is on hand and the
    preprocessor rejects, the handler stops at that await: the compilation
    attempt is the one call made, no header is set and nothing is rendered,
    the fallback slot is left as it was, and no stylesheet is on hand
    afterwards, so that the next such request compiles again. *)
Theorem rejected_compile_leaves_slot (ctx : Ctx) (path rest : string)
    (st : state) (data : value) (view cls : string) :
  path ∈ the_sections ->
  rest <> "" ->
  JS.startsWith rest "_" = false ->
  lookup_entity schedule rest = (data, view, cls) ->
  truthy data = true ->
  on_hand st = None ->
  less_render less_input (lessCalls st) = None ->
  serve ctx path (Some rest) st
  = Build_reply [LessRender less_input] Threw
      {| fallbackProdAmpCss := fallbackProdAmpCss st;
         lessCalls := S (lessCalls st) |}
  /\ on_hand (final (serve ctx path (Some rest) st)) = None.
Proof.
  intros Hpath Hrest Hu Hlook Hdata Hn Hless.
  assert (the_css st
          = ([LessRender less_input], None,
             {| fallbackProdAmpCss := fallbackProdAmpCss st;
                lessCalls := S (lessCalls st) |})) as Hcss.
  { destruct (ampCss_cases st)
      as [(c & E & _) | [(_ & _ & E) | (c & _ & E & _)]]; congruence. }
  assert (serve ctx path (Some rest) st
          = Build_reply [LessRender less_input] Threw
              {| fallbackProdAmpCss := fallbackProdAmpCss st;
                 lessCalls := S (lessCalls st) |}) as Hrun.
  { unfold flat_handler.
    rewrite (handler_known_section dirname readdirSync ctx path Hpath).
    apply String.eqb_neq in Hrest.
    now rewrite Hrest, Hlook, Hdata, Hu, Hcss. }
  split; [exact Hrun|]. rewrite Hrun. exact Hn.
Qed.

(** What the stylesheet step leaves in the trace. *)
Lemma css_trace (st st' : state) (pre : list (event Days))
    (css : option string) :
  the_css st = (pre, css, st') ->
  forall t, rendered (pre ++ t) = rendered t
            /\ compiles (pre ++ t) = compiles pre || compiles t.
Proof.
  intros H t. split; [|apply existsb_app].
  destruct (ampCss_cases st)
    as [(c & _ & E) | [(_ & _ & E) | (c & _ & _ & E)]];
    rewrite E in H; injection H as <- _ _; [reflexivity..|].
  now destruct isProd.
Qed.

(** X9. Whatever is rendered is rendered for a path of the Section List,
    with that path in the scope, in one of two shapes: a section page, with
    layout [devsummit], the path (or [index]) as view and neither payload
    nor styles; or a popup, with layout [amp], one of the two popup views,
    an id that does not start with [_], a truthy payload and styles. *)
Theorem render_shape (ctx : Ctx) (path : string) (rest : option string)
    (st : state) (view : string) (data : locals Days) :
  rendered (trace (serve ctx path rest st)) = Some (view, data) ->
  path ∈ the_sections
  /\ exists scope,
       data = ScopeLocals scope
       /\ sc_path scope = path
       /\ ((sc_layout scope = "devsummit"
            /\ view = (if String.eqb path "" then "index" else path)
            /\ sc_payload scope = None
            /\ sc_styles scope = None)
           \/ (sc_layout scope = "amp"
               /\ (view = "_amp-session" \/ view = "_amp-speaker")
               /\ exists r d css,
                    rest = Some r
                    /\ JS.startsWith r "_" = false
                    /\ sc_id scope = Some r
                    /\ sc_payload scope = Some d
                    /\ truthy d = true
                    /\ sc_styles scope = Some css)).
Proof.
  intros H.
  destruct (handler_cases ctx path rest st)
    as [E | [(sc & Hp & _ & E & Hl & Hpath & _ & _ & Hpay & Hsty)
       | [(r & pre & st' & _ & Hcss & E)
       | (r & d & v & c & pre & css & st' & sc & Hp & Hr & _ & Hu & Hlook
            & Hd & Hcss & E & Hl & Hpath & Hid & Hpay & Hsty)]]];
    rewrite E in H; cbn [trace] in H.
  - discriminate.
  - injection H as <- <-. split; [exact Hp|]. exists sc. auto 10.
  - rewrite <- (app_nil_r pre) in H.
    rewrite (proj1 (css_trace st st' pre None Hcss [])) in H. discriminate.
  - rewrite (proj1 (css_trace st st' pre (Some css) Hcss _)) in H.
    injection H as <- <-. split; [exact Hp|]. exists sc.
    split; [reflexivity|]. split; [exact Hpath|]. right.
    split; [exact Hl|]. split.
    + destruct (lookup_entity_view schedule r) as [V|V];
        rewrite Hlook in V; simpl in V; auto.
    + exists r, d, css. auto 10.
Qed.

(** A reply carries styles when the stylesheet step returned them. *)
Lemma styles_of_css (ctx : Ctx) (path : string) (rest : option string)
    (st : state) (c : string) :
  styles_of (serve ctx path rest st) = Some c ->
  exists pre,
    the_css st = (pre, Some c, final (serve ctx path rest st))
    /\ compiles (trace (serve ctx path rest st)) = compiles pre.
Proof.
  unfold styles_of. intros H.
  destruct (handler_cases ctx path rest st)
    as [E | [(sc & _ & _ & E & _ & _ & _ & _ & _ & Hsty)
       | [(r & pre & st' & _ & Hcss & E)
       | (r & d & v & cl & pre & css & st' & sc & _ & _ & _ & _ & _ & _
            & Hcss & E & _ & _ & _ & _ & Hsty)]]];
    rewrite E in H |- *; cbn [trace final] in H |- *.
  - discriminate.
  - simpl in H. congruence.
  - rewrite <- (app_nil_r pre) in H.
    rewrite (proj1 (css_trace st st' pre None Hcss [])) in H. discriminate.
  - destruct (css_trace st st' pre (Some css) Hcss
                [SetHeader "Feature-Policy" the_header;
                 Render v (ScopeLocals sc)]) as [Hr Hc].
    rewrite Hr in H. simpl in H. rewrite Hsty in H. injection H as <-.
    exists pre. split; [exact Hcss|]. rewrite Hc. simpl. apply orb_false_r.
Qed.

(** With a stylesheet on hand a request compiles nothing, changes nothing
    and renders with that stylesheet if with any. *)
Lemma on_hand_step (ctx : Ctx) (path : string) (rest : option string)
    (st : state) (c : string) :
  on_hand st = Some c ->
  final (serve ctx path rest st) = st
  /\ compiles (trace (serve ctx path rest st)) = false
  /\ result (serve ctx path rest st) <> Threw
  /\ forall c', styles_of (serve ctx path rest st) = Some c' -> c' = c.
Proof.
  intros Hc.
  assert (the_css st = ([], Some c, st)) as Hcss.
  { destruct (ampCss_cases st)
      as [(c' & E & E') | [(E & _) | (c' & E & _)]]; congruence. }
  assert (forall c', styles_of (serve ctx path rest st) = Some c' -> c' = c)
    as Hsty.
  { intros c' H. apply styles_of_css in H as (pre & E & _). congruence. }
  destruct (handler_cases ctx path rest st)
    as [E | [(sc & _ & _ & E & _) | [(r & pre & st' & _ & Hcss' & E)
       | (r & d & v & cl & pre & css & st' & sc & _ & _ & _ & _ & _ & _
            & Hcss' & E & _)]]];
    try rewrite Hcss in Hcss'; rewrite E in Hsty |- *;
    cbn [trace final result].
  - repeat split; [discriminate | exact Hsty].
  - repeat split; [discriminate | exact Hsty].
  - discriminate.
  - injection Hcss' as <- _ <-. repeat split; [discriminate | exact Hsty].
Qed.

(** In production a reply with styles leaves them on hand. *)
Lemma production_leaves_on_hand (ctx : Ctx) (path : string)
    (rest : option string) (st : state) (c : string) :
  isProd = true ->
  styles_of (serve ctx path rest st) = Some c ->
  on_hand (final (serve ctx path rest st)) = Some c.
Proof.
  intros Hprod H. apply styles_of_css in H as (pre & Hcss & _).
  destruct (ampCss_cases st)
    as [(c' & Hc & E) | [(_ & _ & E) | (c' & Hn & _ & E)]];
    rewrite E in Hcss.
  - injection Hcss as _ -> <-. exact Hc.
  - discriminate.
  - injection Hcss as _ -> <-. apply on_hand_None in Hn as [Hp _].
    unfold cssOnHand. rewrite Hp, Hprod. reflexivity.
Qed.

(** Outside production no request writes the fallback slot. *)
Lemma development_step (ctx : Ctx) (path : string) (rest : option string)
    (st : state) :
  isProd = false ->
  fallbackProdAmpCss (final (serve ctx path rest st)) = fallbackProdAmpCss st.
Proof.
  intros Hprod.
  assert (forall pre css st',
            the_css st = (pre, css, st') ->
            fallbackProdAmpCss st' = fallbackProdAmpCss st) as Hstep.
  { intros pre css st' Hcss.
    destruct (ampCss_cases st)
      as [(c' & _ & E') | [(_ & _ & E') | (c' & _ & _ & E')]];
      rewrite E' in Hcss; injection Hcss as _ _ <-; [reflexivity..|].
    now rewrite Hprod. }
  destruct (handler_cases ctx path rest st)
    as [E | [(sc & _ & _ & E & _) | [(r & pre & st' & _ & Hcss & E)
       | (r & d & v & cl & pre & css & st' & sc & _ & _ & _ & _ & _ & _
            & Hcss & E & _)]]];
    rewrite E; cbn [final]; first [reflexivity | now apply Hstep in Hcss].
Qed.

Lemma run_on_hand (st : state) (c : string) (reqs : list Request) :
  on_hand st = Some c -> run_all reqs st = st.
Proof.
  intros Hc. induction reqs as [|rq reqs IH]; simpl; [reflexivity|].
  replace (final (handle_rq rq st)) with st; [exact IH|].
  symmetry. apply (on_hand_step (rq_ctx rq) (rq_path rq) (rq_rest rq) st c Hc).
Qed.

(** X10. Once a stylesheet is on hand, prebuilt or in the fallback slot,
    the state has settled: no sequence of requests changes it, so the slot
    is never overwritten and the preprocessor never invoked again. *)
Theorem state_settles (st : state) (c : string) (reqs : list Request) :
  on_hand st = Some c ->
  run_all reqs st = st
  /\ forall rq, compiles (trace (handle_rq rq (run_all reqs st))) = false.
Proof.
  intros Hc.
  pose proof (run_on_hand st c reqs Hc) as Hrun.
  split; [exact Hrun|]. intros rq. rewrite Hrun. unfold handle.
  apply (on_hand_step (rq_ctx rq) (rq_path rq) (rq_rest rq) st c Hc).
Qed.

(** X11. Outside production the fallback slot is never written, whatever
    the requests; starting with an empty slot, every page that carries
    styles had them compiled for it. *)
Theorem development_never_caches (st : state) (reqs : list Request) :
  isProd = false ->
  fallbackProdAmpCss (run_all reqs st) = fallbackProdAmpCss st
  /\ (fallbackProdAmpCss st = None ->
      forall rq c,
        styles_of (handle_rq rq (run_all reqs st)) = Some c ->
        compiles (trace (handle_rq rq (run_all reqs st))) = true).
Proof.
  intros Hprod.
  assert (fallbackProdAmpCss (run_all reqs st) = fallbackProdAmpCss st)
    as Hrun.
  { revert st. induction reqs as [|rq reqs IH]; intros st; simpl;
      [reflexivity|].
    rewrite IH. unfold handle. now apply development_step. }
  split; [exact Hrun|]. intros Hnone rq c H. unfold handle in *.
  apply styles_of_css in H as (pre & Hcss & ->).
  destruct (ampCss_cases (run_all reqs st))
    as [(c' & Hc & _) | [(_ & _ & E) | (c' & _ & _ & E)]];
    [| rewrite E in Hcss; discriminate
     | rewrite E, Hprod in Hcss; now injection Hcss as <- _ _].
  assert (prodAmpCss isProd dirname readFileSync = None) as Hp
    by (unfold prodAmpCss; now rewrite Hprod).
  unfold cssOnHand in Hc. rewrite Hp, Hrun, Hnone in Hc. discriminate.
Qed.

(** X12. In production all pages of a process carry one stylesheet: after
    a reply rendered with styles [c], whatever requests follow, none invokes
    the preprocessor, none changes the state, and any that carries styles
    carries [c]. *)
Theorem production_serves_one_stylesheet (rq : Request) (st : state)
    (c : string) (reqs : list Request) (rq' : Request) :
  isProd = true ->
  styles_of (handle_rq rq st) = Some c ->
  compiles (trace (handle_rq rq' (run_all reqs (final (handle_rq rq st)))))
  = false
  /\ final (handle_rq rq' (run_all reqs (final (handle_rq rq st))))
     = final (handle_rq rq st)
  /\ forall c',
       styles_of (handle_rq rq' (run_all reqs (final (handle_rq rq st))))
       = Some c' ->
       c' = c.
Proof.
  intros Hprod H. unfold handle in H.
  apply (production_leaves_on_hand _ _ _ _ _ Hprod) in H.
  fold (handle_rq rq st) in H.
  rewrite (run_on_hand _ c reqs H).
  destruct (on_hand_step (rq_ctx rq') (rq_path rq') (rq_rest rq') _ c H)
    as (Hf & Hc & _ & Hs).
  auto.
Qed.

(** X16. In production with the prebuilt stylesheet read at startup, every
    request is served without the preprocessor: none compiles, none changes
    the state, and every page that carries styles carries the prebuilt
    ones, whatever the fallback slot holds. *)
Theorem prebuilt_stylesheet_served (ctx : Ctx) (path : string)
    (rest : option string) (st : state) (buf : string) :
  isProd = true ->
  readFileSync (dirname +:+ "/res/amp.css") = Some buf ->
  final (serve ctx path rest st) = st
  /\ compiles (trace (serve ctx path rest st)) = false
  /\ forall c, styles_of (serve ctx path rest st) = Some c -> c = buf.
Proof.
  intros Hprod Hfile.
  destruct (on_hand_step ctx path rest st buf) as (Hf & Hc & _ & Hs).
  - unfold cssOnHand, prodAmpCss, readProdAmpCss. now rewrite Hprod, Hfile.
  - auto.
Qed.

(** Outside production no sequence of requests writes the fallback slot. *)
Lemma run_development (st : state) (reqs : list Request) :
  isProd = false ->
  fallbackProdAmpCss (run_all reqs st) = fallbackProdAmpCss st.
Proof.
  intros Hprod. revert st.
  induction reqs as [|rq reqs IH]; intros st; simpl; [reflexivity|].
  rewrite IH. unfold handle. now apply development_step.
Qed.

(** C2, as the module has it. With no prebuilt stylesheet and an empty
    fallback slot, a request compiles the stylesheet; the result is written
    to the fallback slot in production mode only. Whatever requests the
    process serves afterwards, in production the slot keeps that stylesheet
    and the stylesheet step returns it without compiling, while outside
    production the slot stays empty and the stylesheet step compiles
    again. *)
Theorem fallback_written_in_production_only (st : state) (css : string) :
  prodAmpCss isProd dirname readFileSync = None ->
  fallbackProdAmpCss st = None ->
  less_render less_input (lessCalls st) = Some css ->
  exists pre st',
    the_css st = (pre, Some css, st')
    /\ compiles pre = true
    /\ fallbackProdAmpCss st' = (if isProd then Some css else None)
    /\ forall reqs,
         fallbackProdAmpCss (run_all reqs st')
         = (if isProd then Some css else None)
         /\ compiles (the_css (run_all reqs st')).1.1 = negb isProd
         /\ (isProd = true ->
             the_css (run_all reqs st') = ([], Some css, st')).
Proof.
  intros Hprod Hfall Hless.
  assert (on_hand st = None) as Hn
    by (unfold cssOnHand; now rewrite Hprod, Hfall).
  destruct (ampCss_cases st)
    as [(c & E & _) | [(_ & E & _) | (c & _ & E & Hcss)]]; try congruence.
  assert (c = css) as -> by congruence. clear E.
  set (st' := {| fallbackProdAmpCss :=
                   if isProd then Some css else fallbackProdAmpCss st;
                 lessCalls := S (lessCalls st) |}) in *.
  assert (isProd = true \/ isProd = false) as Hmode
    by (destruct isProd; auto).
  assert (fallbackProdAmpCss st' = if isProd then Some css else None)
    as Hslot by (unfold st'; cbn; now rewrite Hfall).
  eexists. exists st'. split; [exact Hcss|].
  split; [destruct Hmode as [-> | ->]; reflexivity|].
  split; [exact Hslot|]. intros reqs.
  destruct Hmode as [Hm | Hm].
  - assert (on_hand st' = Some css) as Hc
      by (unfold cssOnHand; rewrite Hprod, Hslot; now rewrite Hm).
    rewrite (run_on_hand st' css reqs Hc).
    assert (the_css st' = ([], Some css, st')) as Hhit.
    { destruct (ampCss_cases st')
        as [(c & E & E') | [(E & _) | (c & E & _)]]; congruence. }
    rewrite Hhit, Hslot. split; [reflexivity|].
    split; [cbn; now rewrite Hm | reflexivity].
  - rewrite (run_development st' reqs Hm), Hslot. split; [reflexivity|].
    split; [|intros Hm'; congruence].
    assert (on_hand (run_all reqs st') = None) as Hn'.
    { unfold cssOnHand.
      rewrite Hprod, (run_development st' reqs Hm), Hslot. now rewrite Hm. }
    destruct (ampCss_cases (run_all reqs st'))
      as [(c & E & _) | [(_ & _ & E) | (c & _ & _ & E)]];
      [congruence | rewrite E | rewrite E]; cbn; now rewrite Hm.
Qed.

(** X13. The speaker branch of the lookup: for a valid section path and a
    non-empty rest id that does not start with [_], when the sessions map
    holds nothing truthy under the id and the speakers map holds a truthy
    record, the handler renders [_amp-speaker] with body class
    [speaker-popup], that record as payload, and its name as title. *)
Theorem speaker_lookup (ctx : Ctx) (path rest : string) (st st' : state)
    (data : value) (css : string) (pre : list (event Days)) :
  path ∈ the_sections ->
  rest <> "" ->
  JS.startsWith rest "_" = false ->
  truthy (get (sessions schedule) rest) = false ->
  speakers schedule !! rest = Some data ->
  truthy data = true ->
  the_css st = (pre, Some css, st') ->
  exists scope,
    serve ctx path (Some rest) st
    = Build_reply
        (pre ++ [SetHeader "Feature-Policy" (policy isProd);
                 Render "_amp-speaker" (ScopeLocals scope)])
        Done st'
    /\ sc_bodyClass scope = Some "speaker-popup"
    /\ sc_payload scope = Some data
    /\ sc_title scope = Some (js_or (field data "name") (VStr "")).
Proof.
  intros Hpath Hrest Hu Hs Hp Hdata Hcss.
  destruct (handler_entity Days isProd dirname schedule calendar_days policy
              readFileSync readdirSync less_render ctx path rest st st' data
              "_amp-speaker" "speaker-popup" css pre)
    as (scope & Hrun & Hfields); try assumption.
  - unfold lookup_entity. rewrite Hs. unfold get at 1. now rewrite Hp.
  - exists scope. split; [exact Hrun|]. tauto.
Qed.

End ServingProperties.

(** ** The front of the chain *)

Section DispatchProperties.

Variable Days : Type.
Variable isProd : bool.
Variable schedule : Schedule.

#[local] Abbreviation front := (dispatch Days isProd schedule).

Lemma fixed_paths_cases (p : string) :
  p ∈ fixed_paths <->
  p = "/sw.js" \/ p = "/schedule.json" \/ p = "/googlec6dfdf23945d0d0c.html"
  \/ p = "/sitemap.xml".
Proof.
  unfold fixed_paths. rewrite !elem_of_cons, elem_of_nil. tauto.
Qed.

(** X14. A request for any path other than the four fixed ones goes
    through the front of the chain untouched: the middleware registered
    after it runs on the state as it was, and its reply is the reply. *)
Theorem other_paths_reach_downstream
    (downstream : Ctx -> state -> reply Days) (ctx : Ctx) (st : state) :
  ctx_path ctx ∉ fixed_paths ->
  front downstream ctx st = downstream ctx st.
Proof.
  intros H. rewrite fixed_paths_cases in H.
  unfold dispatch, compose, sw_middleware, toplevel_middleware.
  destruct (String.eqb_spec (ctx_path ctx) "/sw.js"); [tauto|].
  cbn [result final trace].
  destruct (String.eqb_spec (ctx_path ctx) "/schedule.json"); [tauto|].
  destruct (String.eqb_spec (ctx_path ctx) "/googlec6dfdf23945d0d0c.html");
    [tauto|].
  destruct (String.eqb_spec (ctx_path ctx) "/sitemap.xml"); [tauto|].
  cbn [result final trace]. now destruct (downstream ctx st).
Qed.

(** X15. A request for one of the four fixed paths is answered by the
    front of the chain itself: what is registered after it has no say, the
    state is left as it was, and the reply is the one [send] of the file
    ([sw.js] from [res] in production, from [src] otherwise) or, for
    [/sitemap.xml], the content type followed by the render of [_sitemap]
    with the dataset and the site prefix. *)
Theorem fixed_paths_answered_first
    (downstream : Ctx -> state -> reply Days) (ctx : Ctx) (st : state) :
  ctx_path ctx ∈ fixed_paths ->
  (forall other, front other ctx st = front downstream ctx st)
  /\ result (front downstream ctx st) = Done
  /\ final (front downstream ctx st) = st
  /\ trace (front downstream ctx st)
     = (if String.eqb (ctx_path ctx) "/sw.js"
        then [Send ((if isProd then "res" else "src") +:+ "/sw.js")]
        else if String.eqb (ctx_path ctx) "/schedule.json"
        then [Send "schedule.json"]
        else if String.eqb (ctx_path ctx) "/googlec6dfdf23945d0d0c.html"
        then [Send "googlec6dfdf23945d0d0c.html"]
        else [SetType "text/xml";
              Render "_sitemap"
                (SitemapLocals schedule (site_prefix isProd ctx))]).
Proof.
  intros H. rewrite fixed_paths_cases in H.
  unfold dispatch, compose, sw_middleware, toplevel_middleware, sourcePrefix.
  destruct H as [H | [H | [H | H]]]; rewrite H; cbn; auto.
Qed.

End DispatchProperties.

(** ** More of the module on the example deployment *)

Lemma hidden_path_declines_witness :
  Example.handler true Example.schedule (Example.request "/_sitemap")
    "_sitemap" None Example.fresh
  = Build_reply [] Next Example.fresh.
Proof.
  apply (hidden_path_declines unit true Example.dirname Example.schedule Example.calendar_days
           Example.policy Example.readFileSync Example.readdirSync
           Example.less_render).
  left. reflexivity.
Defined.

Lemma section_page_root :
  "" ∈ sections Example.dirname Example.readdirSync.
Proof. rewrite sections_example. left. Qed.

Lemma section_page_witness :
  (exists scope,
     Example.handler false Example.schedule (Example.request "/") "" None
       Example.fresh
     = Build_reply
         [SetHeader "Feature-Policy" "sync-xhr 'self'";
          Render "index" (ScopeLocals scope)]
         Done Example.fresh
     /\ sc_layout scope = "devsummit"
     /\ sc_path scope = ""
     /\ sc_base scope = "/devsummit"
     /\ sc_canonicalUrl scope = "http://example.com/devsummit/"
     /\ sc_days scope = Example.calendar_days Example.schedule
     /\ sc_id scope = None
     /\ sc_payload scope = None
     /\ sc_styles scope = None)
  /\ forall sched,
       Example.calendar_days sched = Example.calendar_days Example.schedule ->
       Example.handler false sched (Example.request "/") "" None Example.fresh
       = Example.handler false Example.schedule (Example.request "/") "" None
           Example.fresh.
Proof.
  apply (section_page unit false Example.dirname Example.schedule
           Example.calendar_days Example.policy Example.readFileSync
           Example.readdirSync Example.less_render (Example.request "/") ""
           None Example.fresh).
  - exact section_page_root.
  - now left.
Defined.

Lemma decline_is_silent_witness :
  Example.handler true Example.schedule (Example.request "/keynote/99")
    "keynote" (Some "99") Traffic.compiled
  = Build_reply [] Next Traffic.compiled.
Proof.
  apply (decline_is_silent unit true Example.dirname Example.schedule Example.calendar_days
           Example.policy Example.readFileSync Example.readdirSync
           Example.less_render).
  reflexivity.
Defined.

Lemma rejected_compile_leaves_slot_witness :
  flat_handler unit true Example.dirname Example.schedule
    Example.calendar_days Example.policy Example.readFileSync
    Example.readdirSync Traffic.less_rejects (Example.request "/keynote/42")
    "keynote" (Some "42") Example.fresh
  = Build_reply
      [LessRender "@import '/srv/devsummit/static/styles/amp.less';"]
      Threw {| fallbackProdAmpCss := None; lessCalls := 1 |}
  /\ cssOnHand true Example.dirname Example.readFileSync
       (final (flat_handler unit true Example.dirname Example.schedule
                 Example.calendar_days Example.policy Example.readFileSync
                 Example.readdirSync Traffic.less_rejects
                 (Example.request "/keynote/42") "keynote" (Some "42")
                 Example.fresh))
     = None.
Proof.
  apply (rejected_compile_leaves_slot unit true Example.dirname
           Example.schedule Example.calendar_days Example.policy
           Example.readFileSync Example.readdirSync Traffic.less_rejects
           (Example.request "/keynote/42") "keynote" "42" Example.fresh
           Example.talk "_amp-session" "schedule-popup").
  - exact keynote_is_section.
  - discriminate.
  - reflexivity.
  - reflexivity.
  - reflexivity.
  - reflexivity.
  - reflexivity.
Defined.

Lemma render_shape_witness :
  exists data,
    rendered (trace (Example.handler false Example.schedule
                       (Example.request "/keynote/42") "keynote" (Some "42")
                       Example.fresh))
    = Some ("_amp-session", data)
    /\ "keynote" ∈ sections Example.dirname Example.readdirSync
    /\ exists scope,
         data = ScopeLocals scope
         /\ sc_path scope = "keynote"
         /\ ((sc_layout scope = "devsummit"
              /\ "_amp-session" = "keynote"
              /\ sc_payload scope = None
              /\ sc_styles scope = None)
             \/ (sc_layout scope = "amp"
                 /\ ("_amp-session" = "_amp-session"
                     \/ "_amp-session" = "_amp-speaker")
                 /\ exists r d css,
                      Some "42" = Some r
                      /\ JS.startsWith r "_" = false
                      /\ sc_id scope = Some r
                      /\ sc_payload scope = Some d
                      /\ truthy d = true
                      /\ sc_styles scope = Some css)).
Proof.
  eexists. split; [reflexivity|].
  apply (render_shape unit false Example.dirname Example.schedule Example.calendar_days
           Example.policy Example.readFileSync Example.readdirSync
           Example.less_render (Example.request "/keynote/42") "keynote"
           (Some "42") Example.fresh "_amp-session").
  reflexivity.
Defined.

Lemma state_settles_witness :
  Traffic.run true [Traffic.talk; Traffic.home; Traffic.missing; Traffic.talk]
    Traffic.compiled
  = Traffic.compiled
  /\ forall rq,
       compiles
         (trace (Traffic.handle true rq
                   (Traffic.run true
                      [Traffic.talk; Traffic.home; Traffic.missing;
                       Traffic.talk]
                      Traffic.compiled)))
       = false.
Proof.
  apply (state_settles unit true Example.dirname Example.schedule Example.calendar_days
           Example.policy Example.readFileSync Example.readdirSync
           Example.less_render Traffic.compiled "body{margin:0}").
  reflexivity.
Defined.

Lemma development_never_caches_witness :
  fallbackProdAmpCss
    (Traffic.run false [Traffic.talk; Traffic.home; Traffic.talk]
       Example.fresh)
  = fallbackProdAmpCss Example.fresh
  /\ (fallbackProdAmpCss Example.fresh = None ->
      forall rq c,
        styles_of (Traffic.handle false rq
                     (Traffic.run false
                        [Traffic.talk; Traffic.home; Traffic.talk]
                        Example.fresh))
        = Some c ->
        compiles
          (trace (Traffic.handle false rq
                    (Traffic.run false
                       [Traffic.talk; Traffic.home; Traffic.talk]
                       Example.fresh)))
        = true).
Proof.
  apply (development_never_caches unit false Example.dirname Example.schedule
           Example.calendar_days Example.policy Example.readFileSync Example.readdirSync
           Example.less_render).
  reflexivity.
Defined.

Lemma production_serves_one_stylesheet_witness :
  styles_of (Traffic.handle true Traffic.talk Example.fresh)
  = Some "body{margin:0}"
  /\ compiles
       (trace (Traffic.handle true Traffic.talk
                 (Traffic.run true [Traffic.home; Traffic.missing]
                    (final (Traffic.handle true Traffic.talk Example.fresh)))))
     = false
  /\ final (Traffic.handle true Traffic.talk
              (Traffic.run true [Traffic.home; Traffic.missing]
                 (final (Traffic.handle true Traffic.talk Example.fresh))))
     = final (Traffic.handle true Traffic.talk Example.fresh)
  /\ forall c',
       styles_of
         (Traffic.handle true Traffic.talk
            (Traffic.run true [Traffic.home; Traffic.missing]
               (final (Traffic.handle true Traffic.talk Example.fresh))))
       = Some c' ->
       c' = "body{margin:0}".
Proof.
  split; [reflexivity|].
  apply (production_serves_one_stylesheet unit true Example.dirname
           Example.schedule Example.calendar_days Example.policy Example.readFileSync
           Example.readdirSync Example.less_render Traffic.talk Example.fresh
           "body{margin:0}" [Traffic.home; Traffic.missing] Traffic.talk);
    reflexivity.
Defined.

Lemma speaker_lookup_witness :
  exists scope,
    Example.handler false Example.schedule_both (Example.request "/keynote/7")
      "keynote" (Some "7") Example.fresh
    = Build_reply
        ([LessRender "@import '/srv/devsummit/static/styles/amp.less';"]
           ++ [SetHeader "Feature-Policy" "sync-xhr 'self'";
               Render "_amp-speaker" (ScopeLocals scope)])
        Done {| fallbackProdAmpCss := None; lessCalls := 1 |}
    /\ sc_bodyClass scope = Some "speaker-popup"
    /\ sc_payload scope = Some Example.jane
    /\ sc_title scope = Some (VStr "Jane").
Proof.
  apply (speaker_lookup unit false Example.dirname Example.schedule_both Example.calendar_days
           Example.policy Example.readFileSync Example.readdirSync
           Example.less_render (Example.request "/keynote/7") "keynote" "7"
           Example.fresh {| fallbackProdAmpCss := None; lessCalls := 1 |}
           Example.jane "body{margin:0}").
  - exact keynote_is_section.
  - discriminate.
  - reflexivity.
  - reflexivity.
  - reflexivity.
  - reflexivity.
  - reflexivity.
Defined.

Lemma other_paths_reach_downstream_witness :
  dispatch unit false Example.schedule
    (fun ctx st =>
       Example.handler false Example.schedule ctx "keynote" (Some "42") st)
    (Example.request "/keynote/42") Example.fresh
  = Example.handler false Example.schedule (Example.request "/keynote/42")
      "keynote" (Some "42") Example.fresh.
Proof.
  apply (other_paths_reach_downstream unit false Example.schedule
           (fun ctx st =>
              Example.handler false Example.schedule ctx "keynote"
                (Some "42") st)
           (Example.request "/keynote/42") Example.fresh).
  apply (bool_decide_unpack _). vm_compute. exact I.
Defined.

Lemma fixed_paths_answered_first_witness :
  trace (dispatch unit true Example.schedule
           (fun ctx st => Build_reply [] Threw st)
           (Example.request "/sitemap.xml") Example.fresh)
  = [SetType "text/xml";
     Render "_sitemap"
       (SitemapLocals Example.schedule "https://example.com/devsummit")].
Proof.
  refine (proj2 (proj2 (proj2
            (fixed_paths_answered_first unit true Example.schedule
               (fun ctx st => Build_reply [] Threw st)
               (Example.request "/sitemap.xml") Example.fresh _)))).
  apply (bool_decide_unpack _). vm_compute. exact I.
Defined.

Lemma prebuilt_stylesheet_served_witness :
  styles_of
    (flat_handler unit true Example.dirname Example.schedule
       Example.calendar_days Example.policy Traffic.prebuilt
       Example.readdirSync Traffic.less_rejects
       (Example.request "/keynote/42") "keynote" (Some "42")
       Traffic.compiled)
  = Some "html{color:red}"
  /\ final
       (flat_handler unit true Example.dirname Example.schedule
          Example.calendar_days Example.policy Traffic.prebuilt
          Example.readdirSync Traffic.less_rejects
          (Example.request "/keynote/42") "keynote" (Some "42")
          Traffic.compiled)
     = Traffic.compiled.
Proof.
  split; [reflexivity|].
  refine (proj1 (prebuilt_stylesheet_served unit true Example.dirname
                   Example.schedule Example.calendar_days Example.policy
                   Traffic.prebuilt Example.readdirSync Traffic.less_rejects
                   (Example.request "/keynote/42") "keynote" (Some "42")
                   Traffic.compiled "html{color:red}" _ _)); reflexivity.
Defined.

(** C2 on the example deployment in production: the first request for a
    popup compiles, and whatever is served next finds the stylesheet in the
    slot. *)
Lemma fallback_written_in_production_only_witness :
  exists pre st',
    Example.css true Example.fresh = (pre, Some "body{margin:0}", st')
    /\ compiles pre = true
    /\ fallbackProdAmpCss st' = Some "body{margin:0}"
    /\ forall reqs,
         fallbackProdAmpCss (Traffic.run true reqs st')
         = Some "body{margin:0}"
         /\ compiles (Example.css true (Traffic.run true reqs st')).1.1
            = false
         /\ (true = true ->
             Example.css true (Traffic.run true reqs st')
             = ([], Some "body{margin:0}", st')).
Proof.
  apply (fallback_written_in_production_only unit true Example.dirname
           Example.schedule Example.calendar_days Example.policy
           Example.readFileSync Example.readdirSync Example.less_render
           Example.fresh "body{margin:0}"); reflexivity.
Defined.

(** C5 on the code: [constructor] is a key of neither map, yet the read of
    the sessions map yields the function objects inherit under that name,
    and the handler renders the session popup with it as payload instead of
    declining. *)
Lemma inherited_name_is_rendered :
  sessions Example.schedule !! "constructor" = None
  /\ speakers Example.schedule !! "constructor" = None
  /\ lookup_entity Example.schedule "constructor"
     = (VFun "Object", "_amp-session", "schedule-popup")
  /\ fst <$> rendered (trace (Example.handler false Example.schedule
                                (Example.request "/keynote/constructor")
                                "keynote" (Some "constructor")
                                Example.fresh))
     = Some "_amp-session"
  /\ result (Example.handler false Example.schedule
               (Example.request "/keynote/constructor") "keynote"
               (Some "constructor") Example.fresh)
     = Done.
Proof. repeat split; vm_compute; reflexivity. Qed.

(** The dataset of the specification: [rest = "99"] is in neither map and
    names nothing objects inherit. *)
Lemma unknown_request_declines_witness :
  Example.handler false Example.schedule (Example.request "/keynote/99")
    "keynote" (Some "99") Example.fresh
  = Build_reply [] Next Example.fresh.
Proof.
  apply (unknown_request_declines unit false Example.dirname Example.schedule
           Example.calendar_days Example.policy Example.readFileSync
           Example.readdirSync Example.less_render).
  right. exists "99".
  split; [reflexivity|]. split; [discriminate|]. repeat split; reflexivity.
Defined.

(** C10 on the code: with a [null] session under [toString] and no
    speakers, the read of the speakers map yields the inherited function and
    the handler renders the speaker popup instead of declining; on the
    dataset without the key it renders the session popup. *)
Lemma falsy_session_inherited_speaker :
  sessions Example.schedule_null !! "toString" = Some VNull
  /\ speakers Example.schedule_null !! "toString" = None
  /\ delete "toString" (sessions Example.schedule_null)
     = sessions Example.schedule_empty
  /\ lookup_entity Example.schedule_null "toString"
     = (VFun "toString", "_amp-speaker", "speaker-popup")
  /\ fst <$> rendered (trace (Example.handler false Example.schedule_null
                                (Example.request "/keynote/toString")
                                "keynote" (Some "toString") Example.fresh))
     = Some "_amp-speaker"
  /\ fst <$> rendered (trace (Example.handler false Example.schedule_empty
                                (Example.request "/keynote/toString")
                                "keynote" (Some "toString") Example.fresh))
     = Some "_amp-session".
Proof. repeat split; vm_compute; reflexivity. Qed.

